(** * WowSQL TypeScript SDK: the query builder and its request compiler

    A shallow embedding of the [Table] and [QueryBuilder] classes of the
    SDK's main module, with the part of JavaScript they rely on
    (truthiness, [ToString], [split], [trim], [join], object spread),
    followed by the client constructor and by the auth, storage and schema
    modules the main module re-exports.

    Modelling conventions.
    - A JavaScript string is a [string] whose characters are UTF-16 code
      units below 256.
    - A JavaScript number is an integer of [Z] (the doubles that are not
      integers, and the integers too large to print in plain decimal
      notation, are outside the model).
    - An optional property is an [option]; [None] is [undefined].
    - The axios instance is a function from the requests already sent and
      the request being sent to either a [WOWSQLError] (what the response
      interceptor throws) or the decoded response body, typed
      [QueryResponse] as [QueryBuilder.get] declares it. *)

From Stdlib Require Import List String Ascii ZArith Bool.
From Stdlib Require Import Numbers.DecimalString.
From Stdlib Require Import QArith.
Close Scope Q_scope.
Import ListNotations.
Local Open Scope list_scope.
Set Warnings "-register-all".

(** ** JavaScript values and primitives *)

Module Js.

(** The values a filter value ([any]) or a row ([T = any]) can hold. *)
Inductive value : Type :=
| Str (s : string)
| Num (n : Z)
| Bool (b : bool)
| Null
| Arr (l : list value)
| Obj (fields : list (string * value)).

(** [Array.isArray(v)] *)
Definition isArray (v : value) : bool :=
  match v with
  | Arr _ => true
  | _ => false
  end.

(** [ToBoolean(v)] *)
Definition truthy (v : value) : bool :=
  match v with
  | Str s => negb (String.eqb s "")
  | Num n => negb (Z.eqb n 0)
  | Bool b => b
  | Null => false
  | Arr _ => true
  | Obj _ => true
  end.

(** [String(n)] for an integer [n]. *)
Definition number_to_string (n : Z) : string :=
  NilZero.string_of_int (Z.to_int n).

(** [Array.prototype.join], on elements already converted to strings. *)
Definition join (sep : string) (l : list string) : string :=
  String.concat sep l.

(** [ToString(v)], as a template literal applies it.  An array prints as
    its elements joined by commas, a null element as the empty string. *)
Fixpoint to_string (v : value) : string :=
  match v with
  | Str s => s
  | Num n => number_to_string n
  | Bool true => "true"
  | Bool false => "false"
  | Null => "null"
  | Arr l =>
      join "," (map (fun x => match x with
                              | Null => ""%string
                              | _ => to_string x
                              end) l)
  | Obj _ => "[object Object]"
  end.

(** [s.split(sep)] for a one-character separator: never the empty list. *)
Fixpoint split (sep : ascii) (s : string) : list string :=
  match s with
  | EmptyString => [EmptyString]
  | String c rest =>
      if Ascii.eqb c sep then EmptyString :: split sep rest
      else match split sep rest with
           | [] => [String c EmptyString]
           | piece :: pieces => String c piece :: pieces
           end
  end.

(** White space and line terminators among the code units below 256:
    TAB, LF, VT, FF, CR, SP and NBSP. *)
Definition is_whitespace (c : ascii) : bool :=
  let n := nat_of_ascii c in
  ((9 <=? n) && (n <=? 13) || (n =? 32) || (n =? 160))%nat.

Fixpoint trimStart (s : string) : string :=
  match s with
  | EmptyString => EmptyString
  | String c rest => if is_whitespace c then trimStart rest else s
  end.

Fixpoint trimEnd (s : string) : string :=
  match s with
  | EmptyString => EmptyString
  | String c rest =>
      match trimEnd rest with
      | EmptyString => if is_whitespace c then EmptyString else String c EmptyString
      | kept => String c kept
      end
  end.

(** [s.trim()] *)
Definition trim (s : string) : string := trimEnd (trimStart s).

(** Truthiness of a string: only the empty string is falsy. *)
Definition truthy_string (s : string) : bool := negb (String.eqb s "").

(** [{ ...base, ...over }] at one property: [over] is [None] when the
    second object lacks the key, and [Some v] when it has it, with
    [v = None] for a key that is present and holds [undefined]. *)
Definition spread {A : Type} (base : option A) (over : option (option A)) : option A :=
  match over with
  | Some v => v
  | None => base
  end.

(** [x || d] for an optional value whose defined values are all truthy. *)
Definition or_default {A : Type} (x : option A) (d : A) : A :=
  match x with
  | Some v => v
  | None => d
  end.

(** [s.startsWith(p)] *)
Definition startsWith (p s : string) : bool := String.prefix p s.

(** [s.endsWith(suffix)]: some tail of [s] is [suffix]. *)
Fixpoint endsWith (suffix s : string) : bool :=
  String.eqb s suffix
  || match s with
     | EmptyString => false
     | String _ rest => endsWith suffix rest
     end.

(** [s.includes(needle)]: [needle] starts some tail of [s]. *)
Fixpoint includes (needle s : string) : bool :=
  String.prefix needle s
  || match s with
     | EmptyString => false
     | String _ rest => includes needle rest
     end.

(** [s.replace(/\/+$/, '')]: [s] without its trailing slashes. *)
Fixpoint stripTrailingSlashes (s : string) : string :=
  match s with
  | EmptyString => EmptyString
  | String c rest =>
      match stripTrailingSlashes rest with
      | EmptyString => if Ascii.eqb c "/" then EmptyString else String c EmptyString
      | kept => String c kept
      end
  end.

(** [s.replace(/\/$/, '')]: [s] without one trailing slash. *)
Fixpoint stripTrailingSlash (s : string) : string :=
  match s with
  | EmptyString => EmptyString
  | String c rest =>
      match rest with
      | EmptyString => if Ascii.eqb c "/" then EmptyString else s
      | String _ _ => String c (stripTrailingSlash rest)
      end
  end.

(** [s.slice(0, -n)] *)
Definition dropEnd (n : nat) (s : string) : string :=
  String.substring 0 (String.length s - n) s.

(** [a ?? b]: [None] stands for [null] and for [undefined]. *)
Definition nullish {A : Type} (a : option A) (b : A) : A :=
  match a with
  | Some v => v
  | None => b
  end.

(** [a || b] on values typed [string | null]: the empty string is falsy
    as [null] is. *)
Definition or_string (a b : option string) : option string :=
  match a with
  | Some s => if truthy_string s then a else b
  | None => b
  end.

(** [!s] for [s] typed [string | null]. *)
Definition falsy_string (a : option string) : bool :=
  match a with
  | Some s => negb (truthy_string s)
  | None => true
  end.

(** [obj?.key] on a value: only an object has the keys the SDK reads. *)
Fixpoint lookup (key : string) (fields : list (string * value)) : option value :=
  match fields with
  | [] => None
  | (k, v) :: rest => if String.eqb k key then Some v else lookup key rest
  end.

Definition get_prop (key : string) (v : option value) : option value :=
  match v with
  | Some (Obj fields) => lookup key fields
  | _ => None
  end.

(** The first value of [a || b] among optional values, if one is truthy;
    a [null] property reads as falsy like a missing one. *)
Definition truthy_value (v : option value) : option value :=
  match v with
  | Some x => if truthy x then Some x else None
  | None => None
  end.

End Js.

(** ** Types of the SDK *)

Inductive FilterOperator : Type :=
| op_eq | op_neq | op_gt | op_gte | op_lt | op_lte | op_like | op_is
| op_in | op_not_in | op_between | op_not_between | op_is_not.

(** The string literal each operator is in the source. *)
Definition operator_name (o : FilterOperator) : string :=
  match o with
  | op_eq => "eq" | op_neq => "neq" | op_gt => "gt" | op_gte => "gte"
  | op_lt => "lt" | op_lte => "lte" | op_like => "like" | op_is => "is"
  | op_in => "in" | op_not_in => "not_in" | op_between => "between"
  | op_not_between => "not_between" | op_is_not => "is_not"
  end.

(** [HavingFilter['operator']] *)
Inductive HavingOperator : Type :=
| hop_eq | hop_neq | hop_gt | hop_gte | hop_lt | hop_lte.

Inductive LogicalOp : Type := AND | OR.

Inductive Direction : Type := asc | desc.

(** A property typed [X | X[]]. *)
Inductive OneOrMany (A : Type) : Type :=
| One (a : A)
| Many (l : list A).
Arguments One {A} a.
Arguments Many {A} l.

(** [Array.isArray(x) ? x : [x]] *)
Definition as_array {A : Type} (x : OneOrMany A) : list A :=
  match x with
  | One a => [a]
  | Many l => l
  end.

(** [string | string[]] *)
Inductive Columns : Type :=
| ColumnsString (s : string)
| ColumnsArray (l : list string).

(** What [options.select] can hold: a string, or an array whose elements
    are strings or (from the rest-parameter form of [select]) arrays of
    strings. *)
Inductive SelectValue : Type :=
| SelectString (s : string)
| SelectArray (items : list Columns).

Module FilterExpression.
Record t : Type := mk {
  column : string;
  operator : FilterOperator;
  value : Js.value;
  logical_op : option LogicalOp
}.
End FilterExpression.

Module HavingFilter.
Record t : Type := mk {
  column : string;
  operator : HavingOperator;
  value : Js.value
}.
End HavingFilter.

Module OrderByItem.
Record t : Type := mk {
  column : string;
  direction : Direction
}.
End OrderByItem.

(** [string | OrderByItem[]] *)
Inductive OrderValue : Type :=
| OrderString (s : string)
| OrderItems (l : list OrderByItem.t).

Module QueryOptions.
Record t : Type := mk {
  select : option SelectValue;
  filter : option (OneOrMany FilterExpression.t);
  group_by : option Columns;
  having : option (OneOrMany HavingFilter.t);
  order : option OrderValue;
  orderDirection : option Direction;
  limit : option Z;
  offset : option Z
}.

(** [{}] *)
Definition empty : t := mk None None None None None None None None.
End QueryOptions.

(** The [additionalOptions] argument: a [QueryOptions] object seen as a
    set of keys.  A field is [None] when the object lacks the key. *)
Module Overrides.
Record t : Type := mk {
  select : option (option SelectValue);
  filter : option (option (OneOrMany FilterExpression.t));
  group_by : option (option Columns);
  having : option (option (OneOrMany HavingFilter.t));
  order : option (option OrderValue);
  orderDirection : option (option Direction);
  limit : option (option Z);
  offset : option (option Z)
}.

Definition empty : t := mk None None None None None None None None.
End Overrides.

Module QueryResponse.
Record t : Type := mk {
  data : list Js.value;
  count : Z;
  total : Z;
  limit : Z;
  offset : Z
}.
End QueryResponse.

Module WOWSQLError.
Record t : Type := mk {
  message : string;
  statusCode : option Z;
  response : option Js.value
}.
End WOWSQLError.

(** ** What goes on the wire *)

(** The JSON body of [POST /{table}/query] ([const body: any = {}]). *)
Module Body.
Record t : Type := mk {
  select : option (list Columns);
  filters : option (list FilterExpression.t);
  group_by : option (list string);
  having : option (list HavingFilter.t);
  order_by : option OrderValue;
  order_direction : option Direction;
  limit : option Z;
  offset : option Z
}.
End Body.

(** The query parameters of [GET /{table}] ([const params: any = {}]). *)
Module Params.
Record t : Type := mk {
  select : option string;
  filter : option string;
  order : option string;
  order_direction : option Direction;
  limit : option Z;
  offset : option Z
}.
End Params.

Inductive Request : Type :=
| GET (path : string) (params : Params.t)
| POST (path : string) (body : Body.t).

(** ** The request compiler inside [QueryBuilder.get] *)

Module Compiler.

(** [{ ...this.options, ...additionalOptions }]; spreading [undefined]
    (no argument given) adds nothing. *)
Definition merge (options : QueryOptions.t) (additionalOptions : option Overrides.t)
  : QueryOptions.t :=
  match additionalOptions with
  | None => options
  | Some over =>
      QueryOptions.mk
        (Js.spread (QueryOptions.select options) (Overrides.select over))
        (Js.spread (QueryOptions.filter options) (Overrides.filter over))
        (Js.spread (QueryOptions.group_by options) (Overrides.group_by over))
        (Js.spread (QueryOptions.having options) (Overrides.having over))
        (Js.spread (QueryOptions.order options) (Overrides.order over))
        (Js.spread (QueryOptions.orderDirection options) (Overrides.orderDirection over))
        (Js.spread (QueryOptions.limit options) (Overrides.limit over))
        (Js.spread (QueryOptions.offset options) (Overrides.offset over))
  end.

(** [s.split(',').map(s => s.trim())] *)
Definition split_trim (s : string) : list string :=
  map Js.trim (Js.split "," s).

(** [if (finalOptions.select)]: a string is truthy unless empty, an array
    always. *)
Definition select_truthy (v : SelectValue) : bool :=
  match v with
  | SelectString s => Js.truthy_string s
  | SelectArray _ => true
  end.

Definition body_select (v : option SelectValue) : option (list Columns) :=
  match v with
  | Some sel =>
      if select_truthy sel then
        Some match sel with
             | SelectArray items => items
             | SelectString s => map ColumnsString (split_trim s)
             end
      else None
  | None => None
  end.

(** An object or an array is always truthy. *)
Definition body_filters (v : option (OneOrMany FilterExpression.t))
  : option (list FilterExpression.t) :=
  option_map as_array v.

(** [if (finalOptions.group_by)] *)
Definition columns_truthy (v : Columns) : bool :=
  match v with
  | ColumnsString s => Js.truthy_string s
  | ColumnsArray _ => true
  end.

Definition body_group_by (v : option Columns) : option (list string) :=
  match v with
  | Some cols =>
      if columns_truthy cols then
        Some match cols with
             | ColumnsArray l => l
             | ColumnsString s => split_trim s
             end
      else None
  | None => None
  end.

Definition body_having (v : option (OneOrMany HavingFilter.t))
  : option (list HavingFilter.t) :=
  option_map as_array v.

(** [if (finalOptions.order)] *)
Definition order_truthy (v : OrderValue) : bool :=
  match v with
  | OrderString s => Js.truthy_string s
  | OrderItems _ => true
  end.

Definition body_order_by (v : option OrderValue) : option OrderValue :=
  match v with
  | Some o => if order_truthy o then Some o else None
  | None => None
  end.

(** [body.order_direction = finalOptions.orderDirection || 'asc'], set
    only under [typeof finalOptions.order === 'string']. *)
Definition body_order_direction (v : option OrderValue) (dir : option Direction)
  : option Direction :=
  match body_order_by v with
  | Some (OrderString _) => Some (Js.or_default dir asc)
  | _ => None
  end.

(** The part of [get] that fills [body] from [finalOptions]. *)
Definition build_body (finalOptions : QueryOptions.t) : Body.t :=
  Body.mk
    (body_select (QueryOptions.select finalOptions))
    (body_filters (QueryOptions.filter finalOptions))
    (body_group_by (QueryOptions.group_by finalOptions))
    (body_having (QueryOptions.having finalOptions))
    (body_order_by (QueryOptions.order finalOptions))
    (body_order_direction (QueryOptions.order finalOptions)
                          (QueryOptions.orderDirection finalOptions))
    (QueryOptions.limit finalOptions)
    (QueryOptions.offset finalOptions).

(** [['in', 'not_in', 'between', 'not_between'].includes(f.operator)] *)
Definition is_array_operator (o : FilterOperator) : bool :=
  existsb (String.eqb (operator_name o))
          ["in"; "not_in"; "between"; "not_between"]%string.

Definition is_some {A : Type} (x : option A) : bool :=
  match x with
  | Some _ => true
  | None => false
  end.

(** [Array.isArray(body.order_by)] *)
Definition order_by_isArray (v : option OrderValue) : bool :=
  match v with
  | Some (OrderItems _) => true
  | _ => false
  end.

(** [const hasAdvancedFeatures = ...], read as a condition.  Every
    defined [body.group_by] and [body.having] is an array, hence truthy. *)
Definition hasAdvancedFeatures (body : Body.t) : bool :=
  is_some (Body.group_by body)
  || is_some (Body.having body)
  || order_by_isArray (Body.order_by body)
  || match Body.filters body with
     | Some filters =>
         existsb (fun f => is_array_operator (FilterExpression.operator f)) filters
     | None => false
     end.

(** [body.filters && body.filters.length > 0] *)
Definition has_filters (body : Body.t) : bool :=
  match Body.filters body with
  | Some filters => (0 <? List.length filters)%nat
  | None => false
  end.

(** [body.filters.some(f => Array.isArray(f.value))] *)
Definition hasArrayValues (filters : list FilterExpression.t) : bool :=
  existsb (fun f => Js.isArray (FilterExpression.value f)) filters.

(** [`${f.column}.${f.operator}.${f.value}`] *)
Definition filter_token (f : FilterExpression.t) : string :=
  (FilterExpression.column f ++ "." ++ operator_name (FilterExpression.operator f)
   ++ "." ++ Js.to_string (FilterExpression.value f))%string.

(** An element of [body.select] under [join]: a nested array prints as
    its own elements joined by commas. *)
Definition columns_to_string (c : Columns) : string :=
  match c with
  | ColumnsString s => s
  | ColumnsArray l => Js.join "," l
  end.

(** The [params] object of the simple path, once every conditional
    assignment has run. *)
Definition build_params (body : Body.t) : Params.t :=
  Params.mk
    (option_map (fun sel => Js.join "," (map columns_to_string sel)) (Body.select body))
    (match Body.filters body with
     | Some filters =>
         if (0 <? List.length filters)%nat
         then Some (Js.join "," (map filter_token filters))
         else None
     | None => None
     end)
    (match Body.order_by body with
     | Some (OrderString s) => Some s
     | _ => None
     end)
    (match Body.order_by body with
     | Some (OrderString _) => Some (Js.or_default (Body.order_direction body) asc)
     | _ => None
     end)
    (Body.limit body)
    (Body.offset body).

(** The request [get] sends for the merged options: the advanced path,
    the late re-route of array-valued filters, or the simple path. *)
Definition compile (tableName : string) (finalOptions : QueryOptions.t) : Request :=
  let body := build_body finalOptions in
  if hasAdvancedFeatures body then
    POST ("/" ++ tableName ++ "/query") body
  else if has_filters body
          && hasArrayValues (Js.or_default (Body.filters body) []) then
    POST ("/" ++ tableName ++ "/query") body
  else
    GET ("/" ++ tableName) (build_params body).

End Compiler.

(** ** The accumulator: [class QueryBuilder] *)

Module QueryBuilder.

(** The fields of an instance.  [client] is not a field here: it is the
    transport the terminal methods are run against (see [Dispatch]). *)
Record t : Type := mk {
  tableName : string;
  options : QueryOptions.t
}.

(** [new QueryBuilder(client, tableName)], with [options = {}]. *)
Definition new (tableName : string) : t := mk tableName QueryOptions.empty.

(** *** Property assignments [this.options.x = v] *)

Definition set_select (v : SelectValue) (o : QueryOptions.t) : QueryOptions.t :=
  QueryOptions.mk (Some v) (QueryOptions.filter o) (QueryOptions.group_by o)
    (QueryOptions.having o) (QueryOptions.order o) (QueryOptions.orderDirection o)
    (QueryOptions.limit o) (QueryOptions.offset o).

Definition set_filter (v : OneOrMany FilterExpression.t) (o : QueryOptions.t)
  : QueryOptions.t :=
  QueryOptions.mk (QueryOptions.select o) (Some v) (QueryOptions.group_by o)
    (QueryOptions.having o) (QueryOptions.order o) (QueryOptions.orderDirection o)
    (QueryOptions.limit o) (QueryOptions.offset o).

Definition set_group_by (v : Columns) (o : QueryOptions.t) : QueryOptions.t :=
  QueryOptions.mk (QueryOptions.select o) (QueryOptions.filter o) (Some v)
    (QueryOptions.having o) (QueryOptions.order o) (QueryOptions.orderDirection o)
    (QueryOptions.limit o) (QueryOptions.offset o).

Definition set_having (v : OneOrMany HavingFilter.t) (o : QueryOptions.t)
  : QueryOptions.t :=
  QueryOptions.mk (QueryOptions.select o) (QueryOptions.filter o)
    (QueryOptions.group_by o) (Some v) (QueryOptions.order o)
    (QueryOptions.orderDirection o) (QueryOptions.limit o) (QueryOptions.offset o).

Definition set_order (v : OrderValue) (o : QueryOptions.t) : QueryOptions.t :=
  QueryOptions.mk (QueryOptions.select o) (QueryOptions.filter o)
    (QueryOptions.group_by o) (QueryOptions.having o) (Some v)
    (QueryOptions.orderDirection o) (QueryOptions.limit o) (QueryOptions.offset o).

Definition set_orderDirection (v : Direction) (o : QueryOptions.t) : QueryOptions.t :=
  QueryOptions.mk (QueryOptions.select o) (QueryOptions.filter o)
    (QueryOptions.group_by o) (QueryOptions.having o) (QueryOptions.order o)
    (Some v) (QueryOptions.limit o) (QueryOptions.offset o).

Definition set_limit (v : Z) (o : QueryOptions.t) : QueryOptions.t :=
  QueryOptions.mk (QueryOptions.select o) (QueryOptions.filter o)
    (QueryOptions.group_by o) (QueryOptions.having o) (QueryOptions.order o)
    (QueryOptions.orderDirection o) (Some v) (QueryOptions.offset o).

Definition set_offset (v : Z) (o : QueryOptions.t) : QueryOptions.t :=
  QueryOptions.mk (QueryOptions.select o) (QueryOptions.filter o)
    (QueryOptions.group_by o) (QueryOptions.having o) (QueryOptions.order o)
    (QueryOptions.orderDirection o) (QueryOptions.limit o) (Some v).

Definition update (f : QueryOptions.t -> QueryOptions.t) (this : t) : t :=
  mk (tableName this) (f (options this)).

(** *** Chain methods: each mutates [this.options] and returns [this] *)

(** [select(...columns: (string | string[])[])] *)
Definition select (columns : list Columns) (this : t) : t :=
  match columns with
  | [ColumnsArray l] => update (set_select (SelectArray (map ColumnsString l))) this
  | [ColumnsString s] => update (set_select (SelectString s)) this
  | _ => update (set_select (SelectArray columns)) this
  end.

(** [filter(column, operator, value, logical_op = 'AND')]; the last
    argument is [None] when the caller leaves it out. *)
Definition filter (column : string) (operator : FilterOperator) (value : Js.value)
  (logical_op : option LogicalOp) (this : t) : t :=
  let filter :=
    FilterExpression.mk column operator value (Some (Js.or_default logical_op AND)) in
  match QueryOptions.filter (options this) with
  | None => update (set_filter (Many [filter])) this
  | Some (Many l) => update (set_filter (Many (l ++ [filter]))) this
  | Some (One f) => update (set_filter (Many [f; filter])) this
  end.

Definition groupBy (columns : Columns) (this : t) : t :=
  update (set_group_by columns) this.

Definition having (column : string) (operator : HavingOperator) (value : Js.value)
  (this : t) : t :=
  let havingFilter := HavingFilter.mk column operator value in
  match QueryOptions.having (options this) with
  | None => update (set_having (Many [havingFilter])) this
  | Some (Many l) => update (set_having (Many (l ++ [havingFilter]))) this
  | Some (One h) => update (set_having (Many [h; havingFilter])) this
  end.

(** [orderBy(column: string | OrderByItem[], direction?)]: the direction
    is stored only in the string form and only when one is given. *)
Definition orderBy (column : OrderValue) (direction : option Direction) (this : t) : t :=
  match column with
  | OrderString _ =>
      let this := update (set_order column) this in
      match direction with
      | Some d => update (set_orderDirection d) this
      | None => this
      end
  | OrderItems _ => update (set_order column) this
  end.

(** [order(column: string, direction = 'asc')] *)
Definition order (column : string) (direction : option Direction) (this : t) : t :=
  orderBy (OrderString column) (Some (Js.or_default direction asc)) this.

Definition limit (limit : Z) (this : t) : t :=
  update (set_limit limit) this.

Definition offset (offset : Z) (this : t) : t :=
  update (set_offset offset) this.

(** *** Convenience methods *)

Definition eq (column : string) (value : Js.value) : t -> t :=
  filter column op_eq value None.

Definition neq (column : string) (value : Js.value) : t -> t :=
  filter column op_neq value None.

Definition gt (column : string) (value : Js.value) : t -> t :=
  filter column op_gt value None.

Definition gte (column : string) (value : Js.value) : t -> t :=
  filter column op_gte value None.

Definition lt (column : string) (value : Js.value) : t -> t :=
  filter column op_lt value None.

Definition lte (column : string) (value : Js.value) : t -> t :=
  filter column op_lte value None.

Definition like (column : string) (value : string) : t -> t :=
  filter column op_like (Js.Str value) None.

Definition isNull (column : string) : t -> t :=
  filter column op_is Js.Null None.

Definition isNotNull (column : string) : t -> t :=
  filter column op_is_not Js.Null None.

Definition in_ (column : string) (values : list Js.value) : t -> t :=
  filter column op_in (Js.Arr values) None.

Definition notIn (column : string) (values : list Js.value) : t -> t :=
  filter column op_not_in (Js.Arr values) None.

Definition between (column : string) (minValue maxValue : Js.value) : t -> t :=
  filter column op_between (Js.Arr [minValue; maxValue]) None.

Definition notBetween (column : string) (minValue maxValue : Js.value) : t -> t :=
  filter column op_not_between (Js.Arr [minValue; maxValue]) None.

Definition or (column : string) (operator : FilterOperator) (value : Js.value) : t -> t :=
  filter column operator value (Some OR).

(** *** Terminal methods, run against a transport *)

Section Dispatch.

(** The axios instance behind [this.client]: its answer to a request may
    depend on the requests sent before. *)
Variable client : list Request -> Request -> WOWSQLError.t + QueryResponse.t.

(** What a terminal method can change: the instance, and the requests
    that have gone out. *)
Record State : Type := mkState {
  this : t;
  sent : list Request
}.

(** A computation that may throw; the state it leaves survives a throw,
    as a mutation of [this] does in JavaScript. *)
Definition M (A : Type) : Type := State -> (WOWSQLError.t + A) * State.

Definition ret {A : Type} (a : A) : M A := fun st => (inr a, st).

Definition bind {A B : Type} (m : M A) (k : A -> M B) : M B :=
  fun st =>
    match m st with
    | (inr a, st') => k a st'
    | (inl e, st') => (inl e, st')
    end.

Definition read_this : M t := fun st => (inr (this st), st).

Definition call (method : t -> t) : M unit :=
  fun st => (inr tt, mkState (method (this st)) (sent st)).

Definition request (r : Request) : M QueryResponse.t :=
  fun st => (client (sent st) r, mkState (this st) (sent st ++ [r])).

(** [(await this.client.post(path, body)).data] *)
Definition client_post (path : string) (body : Body.t) : M QueryResponse.t :=
  request (POST path body).

(** [(await this.client.get(path, { params })).data] *)
Definition client_get (path : string) (params : Params.t) : M QueryResponse.t :=
  request (GET path params).

(** [async get(additionalOptions?: QueryOptions)] *)
Definition get (additionalOptions : option Overrides.t) : M QueryResponse.t :=
  bind read_this (fun self =>
  let finalOptions := Compiler.merge (options self) additionalOptions in
  let body := Compiler.build_body finalOptions in
  if Compiler.hasAdvancedFeatures body then
    client_post ("/" ++ tableName self ++ "/query") body
  else
    match Body.filters body with
    | Some filters =>
        if (0 <? List.length filters)%nat && Compiler.hasArrayValues filters then
          client_post ("/" ++ tableName self ++ "/query") body
        else client_get ("/" ++ tableName self) (Compiler.build_params body)
    | None => client_get ("/" ++ tableName self) (Compiler.build_params body)
    end).

(** [async execute(additionalOptions?)]: an alias of [get]. *)
Definition execute (additionalOptions : option Overrides.t) : M QueryResponse.t :=
  get additionalOptions.

(** [result.data[0] || null] *)
Definition first_row (result : QueryResponse.t) : Js.value :=
  match QueryResponse.data result with
  | row :: _ => if Js.truthy row then row else Js.Null
  | [] => Js.Null
  end.

(** [async first()]: [(await this.limit(1).get()).data[0] || null] *)
Definition first : M Js.value :=
  bind (call (limit 1)) (fun _ =>
  bind (get None) (fun result =>
  ret (first_row result))).

End Dispatch.

End QueryBuilder.

(** ** [class Table]: where a chain starts *)

Module Table.

Record t : Type := mk {
  tableName : string
}.

(** [select(columns: string | string[])] *)
Definition select (columns : Columns) (this : t) : QueryBuilder.t :=
  QueryBuilder.select [columns] (QueryBuilder.new (tableName this)).

Definition filter (column : string) (operator : FilterOperator) (value : Js.value)
  (logical_op : option LogicalOp) (this : t) : QueryBuilder.t :=
  QueryBuilder.filter column operator value (Some (Js.or_default logical_op AND))
    (QueryBuilder.new (tableName this)).

(** [async get(options?)]: a fresh accumulator, dispatched at once. *)
Definition get (client : list Request -> Request -> WOWSQLError.t + QueryResponse.t)
  (options : option Overrides.t) (this : t)
  : QueryBuilder.M QueryResponse.t :=
  fun st =>
    let fresh := QueryBuilder.mkState (QueryBuilder.new (tableName this))
                   (QueryBuilder.sent st) in
    let '(result, st') := QueryBuilder.get client options fresh in
    (result, QueryBuilder.mkState (QueryBuilder.this st) (QueryBuilder.sent st')).

End Table.

(** ** Notation and observations used in the statements *)

(** A chain [x.f(a).g(b)] is written [x |> f a |> g b]. *)
Notation "x |> f" := (f x) (at level 65, left associativity, only parsing).

(** The [limit] a request carries, as a query parameter or in the body. *)
Definition request_limit (r : Request) : option Z :=
  match r with
  | GET _ params => Params.limit params
  | POST _ body => Body.limit body
  end.

(** A transport whose every answer is an empty page. *)
Definition empty_page_client (_ : list Request) (_ : Request)
  : WOWSQLError.t + QueryResponse.t :=
  inr (QueryResponse.mk [] 0 0 0 0).

(** The operators of a scalar comparison, and those of an array value. *)
Definition scalar_operators : list FilterOperator :=
  [op_eq; op_neq; op_gt; op_gte; op_lt; op_lte; op_like; op_is; op_is_not].

Definition array_operators : list FilterOperator :=
  [op_in; op_not_in; op_between; op_not_between].

(** The options a terminal call works on: the accumulated ones with the
    call's overrides spread over them. *)
Definition final_options (st : QueryBuilder.State) (additionalOptions : option Overrides.t)
  : QueryOptions.t :=
  Compiler.merge (QueryBuilder.options (QueryBuilder.this st)) additionalOptions.

(** The two paths of a request to a table. *)
Definition query_path (st : QueryBuilder.State) : string :=
  "/" ++ QueryBuilder.tableName (QueryBuilder.this st) ++ "/query".

Definition table_path (st : QueryBuilder.State) : string :=
  "/" ++ QueryBuilder.tableName (QueryBuilder.this st).

(** How one property of the final options comes from the stored options
    and the overrides. *)
Definition override_wins {A : Type}
  (over : option (option A)) (stored final : option A) : Prop :=
  (forall v, over = Some v -> final = v) /\ (over = None -> final = stored).

(** ** [class WowSQLClient]: the constructor's settings *)

Module WowSQLClient.

Record WowSQLConfig : Type := mkConfig {
  projectUrl : string;
  apiKey : string;
  baseDomain : option string;
  secure : option bool;
  timeout : option Z
}.

(** [config.secure !== false ? 'https' : 'http'] *)
Definition protocol (config : WowSQLConfig) : string :=
  match secure config with
  | Some false => "http"
  | _ => "https"
  end.

(** [config.baseDomain || 'wowsql.com'] *)
Definition domain (config : WowSQLConfig) : string :=
  match baseDomain config with
  | Some d => if Js.truthy_string d then d else "wowsql.com"
  | None => "wowsql.com"
  end.

(** [this.baseUrl], as the constructor builds it. *)
Definition baseUrl (config : WowSQLConfig) : string :=
  if Js.startsWith "http://" (projectUrl config)
     || Js.startsWith "https://" (projectUrl config)
  then projectUrl config
  else if Js.includes ("." ++ domain config) (projectUrl config)
          || Js.endsWith (domain config) (projectUrl config)
  then (protocol config ++ "://" ++ projectUrl config)%string
  else (protocol config ++ "://" ++ projectUrl config ++ "." ++ domain config)%string.

(** The [baseURL] given to [axios.create]. *)
Definition baseURL (config : WowSQLConfig) : string :=
  (baseUrl config ++ "/api/v2")%string.

(** [table(tableName)] *)
Definition table (tableName : string) : Table.t := Table.mk tableName.

End WowSQLClient.

(** ** More observations used in the statements *)

(** The [offset] a request carries. *)
Definition request_offset (r : Request) : option Z :=
  match r with
  | GET _ params => Params.offset params
  | POST _ body => Body.offset body
  end.

(** The filter and having clauses an accumulator holds, as [get] reads
    them into [body.filters] and [body.having]. *)
Definition stored_filters (this : QueryBuilder.t) : list FilterExpression.t :=
  Js.or_default
    (Compiler.body_filters (QueryOptions.filter (QueryBuilder.options this))) [].

Definition stored_having (this : QueryBuilder.t) : list HavingFilter.t :=
  Js.or_default
    (Compiler.body_having (QueryOptions.having (QueryBuilder.options this))) [].

(** A call of a chain method, as data: a chain is a list of calls. *)
Inductive Call : Type :=
| call_select (columns : list Columns)
| call_filter (column : string) (operator : FilterOperator) (value : Js.value)
    (logical_op : option LogicalOp)
| call_groupBy (columns : Columns)
| call_having (column : string) (operator : HavingOperator) (value : Js.value)
| call_orderBy (column : OrderValue) (direction : option Direction)
| call_order (column : string) (direction : option Direction)
| call_limit (n : Z)
| call_offset (n : Z).

Definition perform (c : Call) : QueryBuilder.t -> QueryBuilder.t :=
  match c with
  | call_select columns => QueryBuilder.select columns
  | call_filter column operator value logical_op =>
      QueryBuilder.filter column operator value logical_op
  | call_groupBy columns => QueryBuilder.groupBy columns
  | call_having column operator value => QueryBuilder.having column operator value
  | call_orderBy column direction => QueryBuilder.orderBy column direction
  | call_order column direction => QueryBuilder.order column direction
  | call_limit n => QueryBuilder.limit n
  | call_offset n => QueryBuilder.offset n
  end.

(** [this.c1(...).c2(...)...] *)
Definition chain (calls : list Call) (this : QueryBuilder.t) : QueryBuilder.t :=
  fold_left (fun self c => perform c self) calls this.

(** The clauses the filter calls of a chain name, in call order. *)
Definition filter_clauses (calls : list Call) : list FilterExpression.t :=
  flat_map (fun c => match c with
                     | call_filter column operator value logical_op =>
                         [FilterExpression.mk column operator value
                            (Some (Js.or_default logical_op AND))]
                     | _ => []
                     end) calls.

Definition having_clauses (calls : list Call) : list HavingFilter.t :=
  flat_map (fun c => match c with
                     | call_having column operator value =>
                         [HavingFilter.mk column operator value]
                     | _ => []
                     end) calls.

(** The same clause with another [logical_op]. *)
Definition with_logical_op (l : option LogicalOp) (f : FilterExpression.t)
  : FilterExpression.t :=
  FilterExpression.mk (FilterExpression.column f) (FilterExpression.operator f)
    (FilterExpression.value f) l.

(** The same options with the [logical_op] of every clause chosen anew. *)
Definition relabel (g : FilterExpression.t -> option LogicalOp) (fo : QueryOptions.t)
  : QueryOptions.t :=
  match QueryOptions.filter fo with
  | Some (One f) => QueryBuilder.set_filter (One (with_logical_op (g f) f)) fo
  | Some (Many l) =>
      QueryBuilder.set_filter (Many (map (fun f => with_logical_op (g f) f) l)) fo
  | None => fo
  end.

(** No comma among the characters of a string. *)
Fixpoint comma_free (s : string) : bool :=
  match s with
  | EmptyString => true
  | String c rest => negb (Ascii.eqb c ",") && comma_free rest
  end.

(** What makes [get] leave the simple path, read off the final options. *)
Definition needs_post (fo : QueryOptions.t) : Prop :=
  (exists g, QueryOptions.group_by fo = Some g /\ Compiler.columns_truthy g = true)
  \/ QueryOptions.having fo <> None
  \/ (exists items, QueryOptions.order fo = Some (OrderItems items))
  \/ (exists fs f, QueryOptions.filter fo = Some fs /\ In f (as_array fs)
        /\ (In (FilterExpression.operator f) array_operators
            \/ Js.isArray (FilterExpression.value f) = true)).

(** The options object that has every key of [o], holding [o]'s value. *)
Definition overrides_of (o : QueryOptions.t) : Overrides.t :=
  Overrides.mk
    (Some (QueryOptions.select o)) (Some (QueryOptions.filter o))
    (Some (QueryOptions.group_by o)) (Some (QueryOptions.having o))
    (Some (QueryOptions.order o)) (Some (QueryOptions.orderDirection o))
    (Some (QueryOptions.limit o)) (Some (QueryOptions.offset o)).

(** ** Computations that change a state and may throw *)

Module Eff.

(** The state a computation leaves survives a throw. *)
Definition M (S E A : Type) : Type := S -> (E + A) * S.

Definition ret {S E A : Type} (a : A) : M S E A := fun s => (inr a, s).

Definition throw {S E A : Type} (e : E) : M S E A := fun s => (inl e, s).

Definition bind {S E A B : Type} (m : M S E A) (k : A -> M S E B) : M S E B :=
  fun s =>
    match m s with
    | (inr a, s') => k a s'
    | (inl e, s') => (inl e, s')
    end.

(** [try { m } catch (error) { throw handler(error) }] *)
Definition rethrow {S E E' A : Type} (m : M S E A) (handler : E -> E') : M S E' A :=
  fun s =>
    match m s with
    | (inr a, s') => (inr a, s')
    | (inl e, s') => (inl (handler e), s')
    end.

Definition gets {S E A : Type} (f : S -> A) : M S E A := fun s => (inr (f s), s).

Definition modify {S E : Type} (f : S -> S) : M S E unit := fun s => (inr tt, f s).

End Eff.

Notation "x <- m ;; k" := (Eff.bind m (fun x => k))
  (at level 61, m at next level, right associativity, only parsing).

(** ** The auth module: [class ProjectAuthClient] and its helpers *)

Module AxiosError.
Record response_t : Type := mkResponse {
  status : Z;
  data : option Js.value
}.
Record t : Type := mk {
  message : string;
  response : option response_t
}.
End AxiosError.

Module Auth.

(** [interface AuthTokenStorage]; [None] is [null]. *)
Class AuthTokenStorage (S : Type) : Type := {
  getAccessToken : S -> option string;
  setAccessToken : option string -> S -> S;
  getRefreshToken : S -> option string;
  setRefreshToken : option string -> S -> S
}.

(** [class MemoryAuthTokenStorage] *)
Record MemoryAuthTokenStorage : Type := mkMemory {
  memory_accessToken : option string;
  memory_refreshToken : option string
}.

Definition newMemoryAuthTokenStorage : MemoryAuthTokenStorage := mkMemory None None.

#[global] Instance Memory_AuthTokenStorage : AuthTokenStorage MemoryAuthTokenStorage := {
  getAccessToken m := memory_accessToken m;
  setAccessToken token m := mkMemory token (memory_refreshToken m);
  getRefreshToken m := memory_refreshToken m;
  setRefreshToken token m := mkMemory (memory_accessToken m) token
}.

(** [function buildAuthBaseUrl(projectUrl, baseDomain = 'wowsql.com',
    secure = true)]; an argument is [None] when it is [undefined]. *)
Definition buildAuthBaseUrl (projectUrl : string) (baseDomain : option string)
  (secure : option bool) : string :=
  let baseDomain := Js.or_default baseDomain "wowsql.com"%string in
  let secure := Js.or_default secure true in
  let normalized := Js.trim projectUrl in
  if Js.startsWith "http://" normalized || Js.startsWith "https://" normalized then
    let normalized := Js.stripTrailingSlashes normalized in
    let normalized :=
      if Js.endsWith "/api" normalized then Js.dropEnd 4 normalized else normalized in
    (normalized ++ "/api/auth")%string
  else
    let protocol := if secure then "https"%string else "http"%string in
    let normalized :=
      if Js.includes ("." ++ baseDomain) normalized || Js.endsWith baseDomain normalized
      then (protocol ++ "://" ++ normalized)%string
      else (protocol ++ "://" ++ normalized ++ "." ++ baseDomain)%string in
    let normalized := Js.stripTrailingSlashes normalized in
    let normalized :=
      if Js.endsWith "/api" normalized then Js.dropEnd 4 normalized else normalized in
    (normalized ++ "/api/auth")%string.

(** *** The shapes of [response.data] the client reads *)

Module RawUser.
Record t : Type := mk {
  id : string;
  email : string;
  full_name : option string;
  fullName : option string;
  avatar_url : option string;
  avatarUrl : option string;
  email_verified : option bool;
  emailVerified : option bool;
  user_metadata : option Js.value;
  userMetadata : option Js.value;
  app_metadata : option Js.value;
  appMetadata : option Js.value;
  created_at : option string;
  createdAt : option string
}.
End RawUser.

Module RawSession.
Record t : Type := mk {
  access_token : option string;
  refresh_token : option string;
  token_type : option string;
  expires_in : option Z;
  user : option RawUser.t
}.
End RawSession.

Module RawOAuth.
Record t : Type := mk {
  authorization_url : option string;
  provider : option string;
  redirect_uri : option string;
  backend_callback_url : option string;
  frontend_redirect_uri : option string
}.
End RawOAuth.

(** A response body is an object of one of these shapes; a property of
    another shape reads as [undefined]. *)
Inductive Data : Type :=
| SessionData (s : RawSession.t)
| UserData (u : RawUser.t)
| OAuthData (o : RawOAuth.t).

Definition session_of (data : Data) : RawSession.t :=
  match data with
  | SessionData s => s
  | _ => RawSession.mk None None None None None
  end.

Definition oauth_of (data : Data) : RawOAuth.t :=
  match data with
  | OAuthData o => o
  | _ => RawOAuth.mk None None None None None
  end.

(** *** Results *)

Module AuthUser.
Record t : Type := mk {
  id : option string;
  email : option string;
  fullName : option string;
  avatarUrl : option string;
  emailVerified : bool;
  userMetadata : Js.value;
  appMetadata : Js.value;
  createdAt : option string
}.
End AuthUser.

Module AuthSession.
Record t : Type := mk {
  accessToken : option string;
  refreshToken : option string;
  tokenType : string;
  expiresIn : Z
}.
End AuthSession.

Module AuthResponse.
Record t : Type := mk {
  user : option AuthUser.t;
  session : AuthSession.t
}.
End AuthResponse.

Module OAuthAuthorizeResponse.
Record t : Type := mk {
  authorizationUrl : option string;
  provider : option string;
  redirectUri : string;
  backendCallbackUrl : option string;
  frontendRedirectUri : option string
}.
End OAuthAuthorizeResponse.

Module SignUpParams.
Record t : Type := mk {
  email : string;
  password : string;
  full_name : option string;
  fullName : option string;
  user_metadata : option Js.value;
  userMetadata : option Js.value
}.
End SignUpParams.

Module SignInParams.
Record t : Type := mk {
  email : string;
  password : string
}.
End SignInParams.

(** [a ?? b] where [b] may be missing too. *)
Definition nullish_opt {A : Type} (a b : option A) : option A :=
  match a with
  | Some _ => a
  | None => b
  end.

(** [function mapSession(data)] *)
Definition mapSession (data : Data) : AuthSession.t :=
  let s := session_of data in
  AuthSession.mk (RawSession.access_token s) (RawSession.refresh_token s)
    (Js.nullish (RawSession.token_type s) "bearer"%string)
    (Js.nullish (RawSession.expires_in s) 0%Z).

(** [function mapUser(data)], on a user object. *)
Definition mapUser (u : RawUser.t) : AuthUser.t :=
  AuthUser.mk (Some (RawUser.id u)) (Some (RawUser.email u))
    (nullish_opt (RawUser.full_name u) (RawUser.fullName u))
    (nullish_opt (RawUser.avatar_url u) (RawUser.avatarUrl u))
    (Js.nullish (nullish_opt (RawUser.email_verified u) (RawUser.emailVerified u)) false)
    (Js.nullish (nullish_opt (RawUser.user_metadata u) (RawUser.userMetadata u))
       (Js.Obj []))
    (Js.nullish (nullish_opt (RawUser.app_metadata u) (RawUser.appMetadata u))
       (Js.Obj []))
    (nullish_opt (RawUser.created_at u) (RawUser.createdAt u)).

(** [mapUser(response.data)] for the body of [GET /me]: an object of
    another shape has none of the properties read. *)
Definition mapUserData (data : Data) : AuthUser.t :=
  match data with
  | UserData u => mapUser u
  | _ => AuthUser.mk None None None None false (Js.Obj []) (Js.Obj []) None
  end.

(** *** Requests *)

Inductive Body : Type :=
| SignUpBody (email password : string) (full_name : option string)
    (user_metadata : option Js.value)
| SignInBody (payload : SignInParams.t).

Inductive Request : Type :=
| POST (path : string) (body : Body)
| GET (path : string) (authorization : option string) (params : list (string * string)).

(** [function normalizeSignUpPayload(payload)] *)
Definition normalizeSignUpPayload (payload : SignUpParams.t) : Body :=
  SignUpBody (SignUpParams.email payload) (SignUpParams.password payload)
    (nullish_opt (SignUpParams.full_name payload) (SignUpParams.fullName payload))
    (nullish_opt (SignUpParams.user_metadata payload) (SignUpParams.userMetadata payload)).

(** What a [catch (error)] can receive. *)
Inductive Thrown : Type :=
| ThrownWOWSQLError (e : WOWSQLError.t)
| ThrownAxiosError (e : AxiosError.t)
| ThrownError (message : string).

(** [axiosError.response?.data] *)
Definition response_data (e : AxiosError.t) : option Js.value :=
  match AxiosError.response e with
  | Some r => AxiosError.data r
  | None => None
  end.

(** [axiosError.response?.status] *)
Definition response_status (e : AxiosError.t) : option Z :=
  option_map AxiosError.status (AxiosError.response e).

(** [private toWowError(error: unknown)] *)
Definition toWowError (error : Thrown) : WOWSQLError.t :=
  match error with
  | ThrownWOWSQLError e => e
  | ThrownAxiosError axiosError =>
      let detail :=
        match Js.truthy_value (Js.get_prop "detail" (response_data axiosError)) with
        | Some v => v
        | None =>
            match Js.truthy_value (Js.get_prop "message" (response_data axiosError)) with
            | Some v => v
            | None => Js.Str (AxiosError.message axiosError)
            end
        end in
      WOWSQLError.mk
        (Js.to_string (if Js.truthy detail then detail else Js.Str "Request failed"))
        (response_status axiosError) (response_data axiosError)
  | ThrownError message =>
      WOWSQLError.mk (if Js.truthy_string message then message else "Unknown error"%string)
        None None
  end.

(** *** The client *)

Section Client.

Context {S : Type} `{AuthTokenStorage S}.

Record t : Type := mk {
  baseURL : string;
  storage : S;
  accessToken : option string;
  refreshToken : option string
}.

(** The part of the constructor that sets the fields: the storage is the
    configured one or a fresh [MemoryAuthTokenStorage]. *)
Definition new (projectUrl : string) (baseDomain : option string) (secure : option bool)
  (storage : S) : t :=
  mk (buildAuthBaseUrl projectUrl baseDomain secure) storage
     (getAccessToken storage) (getRefreshToken storage).

(** The instance and the requests that have gone out. *)
Record State : Type := mkState {
  this : t;
  sent : list Request
}.

(** The axios instance: no interceptor is installed on it, so a failed
    request throws the [AxiosError] itself. *)
Variable client : list Request -> Request -> AxiosError.t + Data.

Definition request (r : Request) : Eff.M State AxiosError.t Data :=
  fun st => (client (sent st) r, mkState (this st) (sent st ++ [r])).

(** [getSession()] *)
Definition getSession (self : t) : option string * option string :=
  (Js.or_string (accessToken self) (getAccessToken (storage self)),
   Js.or_string (refreshToken self) (getRefreshToken (storage self))).

(** [setSession({ accessToken, refreshToken? })] *)
Definition setSession (newAccessToken : string) (newRefreshToken : option string)
  (self : t) : t :=
  let access := Some newAccessToken in
  let refresh := newRefreshToken in
  mk (baseURL self)
     (setRefreshToken refresh (setAccessToken access (storage self)))
     access refresh.

(** [clearSession()] *)
Definition clearSession (self : t) : t :=
  mk (baseURL self)
     (setRefreshToken None (setAccessToken None (storage self)))
     None None.

(** [private persistSession(raw)] *)
Definition persistSession {E : Type} (raw : Data) : Eff.M State E AuthSession.t :=
  let session := mapSession raw in
  _ <- Eff.modify (fun st =>
         mkState
           (mk (baseURL (this st))
               (setRefreshToken (AuthSession.refreshToken session)
                  (setAccessToken (AuthSession.accessToken session)
                     (storage (this st))))
               (AuthSession.accessToken session)
               (AuthSession.refreshToken session))
           (sent st)) ;;
  Eff.ret session.

(** [async signUp(payload)] *)
Definition signUp (payload : SignUpParams.t) : Eff.M State WOWSQLError.t AuthResponse.t :=
  Eff.rethrow
    (data <- request (POST "/signup" (normalizeSignUpPayload payload)) ;;
     session <- persistSession data ;;
     Eff.ret (AuthResponse.mk (option_map mapUser (RawSession.user (session_of data)))
                session))
    (fun error => toWowError (ThrownAxiosError error)).

(** [async signIn(payload)] *)
Definition signIn (payload : SignInParams.t) : Eff.M State WOWSQLError.t AuthResponse.t :=
  Eff.rethrow
    (data <- request (POST "/login" (SignInBody payload)) ;;
     session <- persistSession data ;;
     Eff.ret (AuthResponse.mk None session))
    (fun error => toWowError (ThrownAxiosError error)).

(** [async getUser(accessToken?)] *)
Definition getUser (accessToken' : option string) : Eff.M State WOWSQLError.t AuthUser.t :=
  self <- Eff.gets this ;;
  let token :=
    Js.or_string accessToken'
      (Js.or_string (accessToken self) (getAccessToken (storage self))) in
  match token with
  | Some t =>
      if Js.truthy_string t then
        Eff.rethrow
          (data <- request (GET "/me" (Some ("Bearer " ++ t)%string) []) ;;
           Eff.ret (mapUserData data))
          (fun error => toWowError (ThrownAxiosError error))
      else
        Eff.throw (WOWSQLError.mk "Access token is required. Please sign in first."
                     None None)
  | None =>
      Eff.throw (WOWSQLError.mk "Access token is required. Please sign in first."
                   None None)
  end.

(** The [catch] of [getOAuthAuthorizationUrl]. *)
Definition oauth_error (self : t) (provider : string) (axiosError : AxiosError.t)
  : WOWSQLError.t :=
  match response_status axiosError with
  | Some 502%Z =>
      WOWSQLError.mk
        ("Bad Gateway (502): The backend server may be down or unreachable. "
         ++ "Check if the backend is running and accessible at " ++ baseURL self)%string
        (Some 502%Z) (response_data axiosError)
  | Some 400%Z =>
      WOWSQLError.mk
        ("Bad Request (400): " ++ AxiosError.message axiosError ++ ". "
         ++ "Ensure OAuth provider '" ++ provider
         ++ "' is configured and enabled for this project.")%string
        (Some 400%Z) (response_data axiosError)
  | _ => toWowError (ThrownAxiosError axiosError)
  end.

(** [async getOAuthAuthorizationUrl(provider, redirectUri)] *)
Definition getOAuthAuthorizationUrl (provider redirectUri : string)
  : Eff.M State WOWSQLError.t OAuthAuthorizeResponse.t :=
  if negb (Js.truthy_string redirectUri) || negb (Js.truthy_string (Js.trim redirectUri))
  then Eff.throw (WOWSQLError.mk "redirectUri is required and cannot be empty" None None)
  else if negb (Js.truthy_string provider) || negb (Js.truthy_string (Js.trim provider))
  then Eff.throw (WOWSQLError.mk "provider is required and cannot be empty" None None)
  else
    let redirectUri := Js.trim redirectUri in
    self <- Eff.gets this ;;
    Eff.rethrow
      (data <- request (GET ("/oauth/" ++ provider) None
                          [("frontend_redirect_uri"%string, redirectUri)]) ;;
       let o := oauth_of data in
       Eff.ret (OAuthAuthorizeResponse.mk
                  (RawOAuth.authorization_url o) (RawOAuth.provider o)
                  (Js.or_default
                     (Js.or_string (RawOAuth.redirect_uri o)
                        (Js.or_string (RawOAuth.backend_callback_url o) (Some ""%string)))
                     ""%string)
                  (RawOAuth.backend_callback_url o)
                  (RawOAuth.frontend_redirect_uri o)))
      (oauth_error self provider).

End Client.

End Auth.

(** [n] slashes in a row. *)
Fixpoint slashes (n : nat) : string :=
  match n with
  | O => EmptyString
  | S n' => String "/" (slashes n')
  end.

(** ** The storage module: [class WowSQLStorage]

    Sizes in GB are doubles; a finite double is modelled as the rational
    number it is, so [>] is the comparison of rationals.  A file size in
    bytes is an integer ([Buffer.length]); dividing it by [1024 ** 3], a
    power of two, is exact in doubles. *)

Module Storage.

Module StorageQuota.
Record t : Type := mk {
  storage_quota_gb : Q;
  storage_used_gb : Q;
  storage_expansion_gb : Q;
  storage_available_gb : Q;
  usage_percentage : Q;
  can_expand_storage : bool;
  is_enterprise : bool;
  plan_name : string
}.
End StorageQuota.

Module FileUploadResult.
Record t : Type := mk {
  success : bool;
  file_key : string;
  file_size : Z;
  bucket_name : string;
  url : option string;
  message : string
}.
End FileUploadResult.

Module DeleteResult.
Record t : Type := mk {
  success : bool;
  message : string;
  file_key : string
}.
End DeleteResult.

(** [class StorageError] and its subclass, told apart by [name]. *)
Inductive ErrorName : Type := StorageError | StorageLimitExceededError.

Module Error.
Record t : Type := mk {
  name : ErrorName;
  message : string;
  statusCode : option Z;
  response : option Js.value
}.
End Error.

(** The response interceptor of the constructor, on an [AxiosError]. *)
Definition interceptor (error : AxiosError.t) : Error.t :=
  match AxiosError.response error with
  | Some response =>
      let errorData := AxiosError.data response in
      let errorMessage :=
        match Js.truthy_value (Js.get_prop "detail" errorData) with
        | Some v => v
        | None =>
            match Js.truthy_value (Js.get_prop "message" errorData) with
            | Some v => v
            | None => Js.Str (AxiosError.message error)
            end
        end in
      Error.mk
        (if Z.eqb (AxiosError.status response) 413
         then StorageLimitExceededError else StorageError)
        (Js.to_string errorMessage) (Some (AxiosError.status response)) errorData
  | None => Error.mk StorageError (AxiosError.message error) None None
  end.

(** [Buffer | Blob], as the bytes held. *)
Inductive FileData : Type :=
| Buffer (bytes : list Byte.byte)
| Blob (bytes : list Byte.byte).

(** [fileData instanceof Buffer ? fileData.length : fileData.size] *)
Definition fileSize (fileData : FileData) : Z :=
  match fileData with
  | Buffer bytes => Z.of_nat (List.length bytes)
  | Blob bytes => Z.of_nat (List.length bytes)
  end.

(** The bytes of the blob appended to the form. *)
Definition blob_bytes (fileData : FileData) : list Byte.byte :=
  match fileData with
  | Buffer bytes => bytes
  | Blob bytes => bytes
  end.

Module UploadOptions.
Record t : Type := mk {
  folder : option string;
  contentType : option string;
  checkQuota : option bool
}.
End UploadOptions.

Inductive Request : Type :=
| GET (path : string)
| POST_form (url : string) (fileName : string) (file : list Byte.byte)
| DELETE (path : string).

(** *** Number and URL formatting *)

Fixpoint zeros (n : nat) : string :=
  match n with
  | O => EmptyString
  | S n' => String "0" (zeros n')
  end.

(** [x.toFixed(4)], for [x] below 10^21 in size: the nearest multiple
    of 1/10000, the larger one on a tie, printed with four decimals. *)
Definition toFixed4 (x : Q) : string :=
  let a := Z.abs (Qnum x) in
  let d := Zpos (Qden x) in
  let n := ((2 * a * 10000 + d) / (2 * d))%Z in
  let decimals := Js.number_to_string (n mod 10000) in
  ((if (Qnum x <? 0)%Z then "-" else "")
   ++ Js.number_to_string (n / 10000) ++ "."
   ++ zeros (4 - String.length decimals) ++ decimals)%string.

Definition hex_digit (n : nat) : ascii :=
  ascii_of_nat (if (n <? 10)%nat then 48 + n else 55 + n).

(** [%XX] *)
Definition percent (byte : nat) : string :=
  String "%" (String (hex_digit (byte / 16)) (String (hex_digit (byte mod 16)) EmptyString)).

(** One code unit under the serializer of [URLSearchParams]: letters,
    digits and [*-._] stay, a space becomes [+], anything else is the
    percent-encoding of its UTF-8 bytes. *)
Definition form_encode_char (c : ascii) : string :=
  let n := nat_of_ascii c in
  if ((48 <=? n) && (n <=? 57) || (65 <=? n) && (n <=? 90) || (97 <=? n) && (n <=? 122)
      || (n =? 42) || (n =? 45) || (n =? 46) || (n =? 95))%nat
  then String c EmptyString
  else if (n =? 32)%nat then "+"%string
  else if (n <? 128)%nat then percent n
  else (percent (192 + n / 64) ++ percent (128 + n mod 64))%string.

Fixpoint form_encode (s : string) : string :=
  match s with
  | EmptyString => EmptyString
  | String c rest => (form_encode_char c ++ form_encode rest)%string
  end.

(** *** The client *)

Record t : Type := mk {
  projectSlug : string;
  autoCheckQuota : bool;
  quotaCache : option StorageQuota.t
}.

(** The fields the constructor sets:
    [autoCheckQuota = config.autoCheckQuota !== false], no quota cached. *)
Definition new (projectSlug : string) (autoCheckQuota : option bool) : t :=
  mk projectSlug
     (match autoCheckQuota with Some false => false | _ => true end)
     None.

Record State : Type := mkState {
  this : t;
  sent : list Request
}.

Definition set_quotaCache (cache : option StorageQuota.t) (st : State) : State :=
  mkState (mk (projectSlug (this st)) (autoCheckQuota (this st)) cache) (sent st).

Section Client.

(** The axios instance through its typed calls; a failed request throws
    what the interceptor makes of it. *)
Variable client_get_quota : list Request -> Request -> Error.t + StorageQuota.t.
Variable client_post_upload : list Request -> Request -> Error.t + FileUploadResult.t.
Variable client_delete : list Request -> Request -> Error.t + DeleteResult.t.

Definition request {A : Type} (client : list Request -> Request -> Error.t + A)
  (r : Request) : Eff.M State Error.t A :=
  fun st => (client (sent st) r, mkState (this st) (sent st ++ [r])).

Definition quota_path (self : t) : string :=
  ("/api/v1/storage/s3/projects/" ++ projectSlug self ++ "/quota")%string.

(** [async getQuota(forceRefresh = false)] *)
Definition getQuota (forceRefresh : option bool) : Eff.M State Error.t StorageQuota.t :=
  let forceRefresh := Js.or_default forceRefresh false in
  self <- Eff.gets this ;;
  match quotaCache self with
  | Some cached =>
      if negb forceRefresh then Eff.ret cached
      else
        data <- request client_get_quota (GET (quota_path self)) ;;
        _ <- Eff.modify (set_quotaCache (Some data)) ;;
        Eff.ret data
  | None =>
      data <- request client_get_quota (GET (quota_path self)) ;;
      _ <- Eff.modify (set_quotaCache (Some data)) ;;
      Eff.ret data
  end.

(** [fileSizeBytes / (1024 ** 3)] *)
Definition bytes_to_GB (fileSizeBytes : Z) : Q := (fileSizeBytes # 1073741824)%Q.

(** [fileSizeGB > quota.storage_available_gb] *)
Definition exceeds (fileSizeGB available : Q) : bool :=
  negb (Qle_bool fileSizeGB available).

(** [async checkUploadAllowed(fileSizeBytes)] *)
Definition checkUploadAllowed (fileSizeBytes : Z) : Eff.M State Error.t (bool * string) :=
  quota <- getQuota (Some true) ;;
  let fileSizeGB := bytes_to_GB fileSizeBytes in
  if exceeds fileSizeGB (StorageQuota.storage_available_gb quota) then
    Eff.ret (false,
             ("Storage limit exceeded! File size: " ++ toFixed4 fileSizeGB ++ " GB, "
              ++ "Available: " ++ toFixed4 (StorageQuota.storage_available_gb quota)
              ++ " GB. " ++ "Upgrade your plan to get more storage.")%string)
  else
    Eff.ret (true,
             ("Upload allowed. " ++ toFixed4 (StorageQuota.storage_available_gb quota)
              ++ " GB available.")%string).

(** [options?.checkQuota !== undefined ? options.checkQuota
    : this.autoCheckQuota] *)
Definition shouldCheck (options : option UploadOptions.t) (self : t) : bool :=
  match options with
  | Some o => Js.or_default (UploadOptions.checkQuota o) (autoCheckQuota self)
  | None => autoCheckQuota self
  end.

(** [params.toString()] after [if (options?.folder) params.append(...)] *)
Definition upload_query (options : option UploadOptions.t) : string :=
  match options with
  | Some o =>
      match UploadOptions.folder o with
      | Some folder =>
          if Js.truthy_string folder then ("folder=" ++ form_encode folder)%string
          else ""%string
      | None => ""%string
      end
  | None => ""%string
  end.

Definition upload_url (options : option UploadOptions.t) (self : t) : string :=
  ("/api/v1/storage/s3/projects/" ++ projectSlug self ++ "/upload"
   ++ (if Js.truthy_string (upload_query options)
       then "?" ++ upload_query options else ""))%string.

(** [async uploadFile(fileData, fileName, options?)] *)
Definition uploadFile (fileData : FileData) (fileName : string)
  (options : option UploadOptions.t) : Eff.M State Error.t FileUploadResult.t :=
  self <- Eff.gets this ;;
  _ <- (if shouldCheck options self then
          check <- checkUploadAllowed (fileSize fileData) ;;
          if negb (fst check)
          then Eff.throw (Error.mk StorageLimitExceededError (snd check) (Some 413%Z) None)
          else Eff.ret tt
        else Eff.ret tt) ;;
  data <- request client_post_upload
            (POST_form (upload_url options self) fileName (blob_bytes fileData)) ;;
  _ <- Eff.modify (set_quotaCache None) ;;
  Eff.ret data.

(** [async deleteFile(fileKey)] *)
Definition deleteFile (fileKey : string) : Eff.M State Error.t DeleteResult.t :=
  self <- Eff.gets this ;;
  data <- request client_delete
            (DELETE ("/api/v1/storage/s3/projects/" ++ projectSlug self
                     ++ "/files/" ++ fileKey)) ;;
  _ <- Eff.modify (set_quotaCache None) ;;
  Eff.ret data.

End Client.

End Storage.

(** ** The schema module: [class WowSQLSchema] *)

Module Schema.

Module ColumnDefinition.
Record t : Type := mk {
  name : string;
  type : string;
  auto_increment : option bool;
  unique : option bool;
  nullable : option bool;
  default : option string
}.
End ColumnDefinition.

Module CreateTableOptions.
Record t : Type := mk {
  tableName : string;
  columns : list ColumnDefinition.t;
  primaryKey : option string;
  indexes : option (list string)
}.
End CreateTableOptions.

Inductive AlterOperation : Type :=
| add_column | drop_column | modify_column | rename_column.

Module AlterTableOptions.
Record t : Type := mk {
  tableName : string;
  operation : AlterOperation;
  columnName : option string;
  columnType : option string;
  newColumnName : option string;
  nullable : option bool;
  default : option string
}.
End AlterTableOptions.

Inductive Method : Type := POST | PATCH | DELETE.

(** The object given to [JSON.stringify] for the body. *)
Inductive Body : Type :=
| CreateTableBody (table_name : string) (columns : list ColumnDefinition.t)
    (primary_key : option string) (indexes : option (list string))
| AlterTableBody (options : AlterTableOptions.t)
| ExecuteBody (sql : string).

(** A call of [fetch(url, { method, headers, body })]. *)
Module Request.
Record t : Type := mk {
  url : string;
  method : Method;
  authorization : string;
  contentType : option string;
  body : option Body
}.
End Request.

(** What [fetch] resolves to: [json] is the parsed body, [None] when the
    body is not JSON and [response.json()] rejects. *)
Module Response.
Record t : Type := mk {
  status : Z;
  statusText : string;
  json : option Js.value
}.

(** [response.ok] *)
Definition ok (r : t) : bool := ((200 <=? status r) && (status r <=? 299))%Z.
End Response.

(** What a method can throw: the [Error] it builds, or what [fetch] and
    [response.json()] reject with. *)
Inductive Thrown : Type :=
| Error (message : string)
| FetchFailed (message : string)
| SyntaxError
| TypeError.

Record t : Type := mk {
  baseUrl : string;
  serviceKey : string
}.

(** [constructor(projectUrl, serviceKey)] *)
Definition new (projectUrl serviceKey : string) : t :=
  mk (Js.stripTrailingSlash projectUrl) serviceKey.

Section Client.

Variable fetch : list Request.t -> Request.t -> string + Response.t.

Record State : Type := mkState {
  sent : list Request.t
}.

Definition call_fetch (r : Request.t) : Eff.M State Thrown Response.t :=
  fun st =>
    (match fetch (sent st) r with
     | inl message => inl (FetchFailed message)
     | inr response => inr response
     end,
     mkState (sent st ++ [r])).

(** [await response.json()] *)
Definition response_json (response : Response.t) : Eff.M State Thrown Js.value :=
  match Response.json response with
  | Some v => Eff.ret v
  | None => Eff.throw SyntaxError
  end.

(** [`${error.detail || response.statusText}`], for an [error] that is
    not [null]. *)
Definition detail_or_statusText (error : Js.value) (response : Response.t) : string :=
  match Js.truthy_value (Js.get_prop "detail" (Some error)) with
  | Some v => Js.to_string v
  | None => Response.statusText response
  end.

(** The three statements that follow [fetch] in every method. *)
Definition settle (forbidden failed : string) (response : Response.t)
  : Eff.M State Thrown Js.value :=
  if Z.eqb (Response.status response) 403 then Eff.throw (Error forbidden)
  else if negb (Response.ok response) then
    error <- response_json response ;;
    match error with
    | Js.Null => Eff.throw TypeError
    | _ => Eff.throw (Error (failed ++ detail_or_statusText error response)%string)
    end
  else response_json response.

Definition bearer (self : t) : string := ("Bearer " ++ serviceKey self)%string.

(** [async createTable(options)] *)
Definition createTable (self : t) (options : CreateTableOptions.t)
  : Eff.M State Thrown Js.value :=
  let url := (baseUrl self ++ "/api/v2/schema/tables")%string in
  response <- call_fetch
                (Request.mk url POST (bearer self) (Some "application/json"%string)
                   (Some (CreateTableBody (CreateTableOptions.tableName options)
                            (CreateTableOptions.columns options)
                            (CreateTableOptions.primaryKey options)
                            (CreateTableOptions.indexes options)))) ;;
  settle ("Schema operations require a SERVICE ROLE key. "
          ++ "You are using an anonymous key which cannot modify database schema.")
         "Failed to create table: " response.

(** [async alterTable(options)] *)
Definition alterTable (self : t) (options : AlterTableOptions.t)
  : Eff.M State Thrown Js.value :=
  let url := (baseUrl self ++ "/api/v2/schema/tables/"
              ++ AlterTableOptions.tableName options)%string in
  response <- call_fetch
                (Request.mk url PATCH (bearer self) (Some "application/json"%string)
                   (Some (AlterTableBody options))) ;;
  settle "Schema operations require a SERVICE ROLE key."
         "Failed to alter table: " response.

(** [async dropTable(tableName, cascade = false)] *)
Definition dropTable (self : t) (tableName : string) (cascade : option bool)
  : Eff.M State Thrown Js.value :=
  let cascade := Js.or_default cascade false in
  let url := (baseUrl self ++ "/api/v2/schema/tables/" ++ tableName
              ++ "?cascade=" ++ (if cascade then "true" else "false"))%string in
  response <- call_fetch (Request.mk url DELETE (bearer self) None None) ;;
  settle "Schema operations require a SERVICE ROLE key."
         "Failed to drop table: " response.

(** [async executeSQL(sql)] *)
Definition executeSQL (self : t) (sql : string) : Eff.M State Thrown Js.value :=
  let url := (baseUrl self ++ "/api/v2/schema/execute")%string in
  response <- call_fetch
                (Request.mk url POST (bearer self) (Some "application/json"%string)
                   (Some (ExecuteBody sql))) ;;
  settle "Schema operations require a SERVICE ROLE key."
         "Failed to execute SQL: " response.

End Client.

End Schema.

(** ** The JavaScript primitives on small inputs *)

Example split_empty : Js.split "," "" = [""%string].
Proof. reflexivity. Qed.

Example split_trailing : Js.split "," "a,b," = ["a"; "b"; ""]%string.
Proof. reflexivity. Qed.

Example split_trim_spaces :
  Compiler.split_trim " id ,  name" = ["id"; "name"]%string.
Proof. reflexivity. Qed.

Example trim_keeps_inner : Js.trim "  COUNT(id) as n  " = "COUNT(id) as n"%string.
Proof. reflexivity. Qed.

Example to_string_values :
  map Js.to_string
    [Js.Num 18; Js.Num 0; Js.Num (-5); Js.Str "x"; Js.Bool true; Js.Null;
     Js.Arr [Js.Num 1; Js.Null; Js.Str "b"]]
  = ["18"; "0"; "-5"; "x"; "true"; "null"; "1,,b"]%string.
Proof. reflexivity. Qed.

Example select_rest_parameters :
  QueryOptions.select
    (QueryBuilder.options
       (QueryBuilder.new "products"
        |> QueryBuilder.select [ColumnsString "category"; ColumnsString "COUNT(id) as n"]))
  = Some (SelectArray [ColumnsString "category"; ColumnsString "COUNT(id) as n"]).
Proof. reflexivity. Qed.

(** ** The request of [get] *)

Lemma get_request client additionalOptions st :
  QueryBuilder.get client additionalOptions st =
  QueryBuilder.request client
    (Compiler.compile (QueryBuilder.tableName (QueryBuilder.this st))
       (Compiler.merge (QueryBuilder.options (QueryBuilder.this st)) additionalOptions))
    st.
Proof.
  unfold QueryBuilder.get, QueryBuilder.bind, QueryBuilder.read_this,
    Compiler.compile, Compiler.has_filters,
    QueryBuilder.client_post, QueryBuilder.client_get.
  cbn beta iota zeta.
  destruct (Compiler.hasAdvancedFeatures _); [reflexivity|].
  destruct (Body.filters _) as [filters|]; cbn [Js.or_default andb].
  - destruct ((0 <? List.length filters)%nat && Compiler.hasArrayValues filters);
      reflexivity.
  - reflexivity.
Qed.

Lemma array_operator_spec o :
  Compiler.is_array_operator o = true <-> In o array_operators.
Proof.
  unfold array_operators.
  destruct o; cbn; intuition congruence.
Qed.

Lemma scalar_operator_not_array o :
  In o scalar_operators -> Compiler.is_array_operator o = false.
Proof.
  unfold scalar_operators.
  destruct o; cbn; intuition congruence.
Qed.

(** When the simple path is taken. *)
Lemma compile_simple tableName fo :
  Compiler.hasAdvancedFeatures (Compiler.build_body fo) = false ->
  Compiler.hasArrayValues
    (Js.or_default (Body.filters (Compiler.build_body fo)) []) = false ->
  Compiler.compile tableName fo =
  GET ("/" ++ tableName) (Compiler.build_params (Compiler.build_body fo)).
Proof.
  intros Hadv Harr. unfold Compiler.compile.
  rewrite Hadv, Harr, andb_false_r. reflexivity.
Qed.

(** When the advanced path is taken at the first test. *)
Lemma compile_advanced tableName fo :
  Compiler.hasAdvancedFeatures (Compiler.build_body fo) = true ->
  Compiler.compile tableName fo =
  POST ("/" ++ tableName ++ "/query") (Compiler.build_body fo).
Proof.
  intros Hadv. unfold Compiler.compile. rewrite Hadv. reflexivity.
Qed.

Lemma advanced_features_detected fo :
  (exists g, QueryOptions.group_by fo = Some g /\ Compiler.columns_truthy g = true)
  \/ QueryOptions.having fo <> None
  \/ (exists items, QueryOptions.order fo = Some (OrderItems items))
  \/ (exists fs f, QueryOptions.filter fo = Some fs /\ In f (as_array fs)
                   /\ In (FilterExpression.operator f) array_operators) ->
  Compiler.hasAdvancedFeatures (Compiler.build_body fo) = true.
Proof.
  unfold Compiler.hasAdvancedFeatures, Compiler.build_body; cbn [Body.group_by
    Body.having Body.order_by Body.filters].
  intros [[g [Hg Ht]] | [Hh | [[items Ho] | [fs [f [Hf [Hin Hop]]]]]]].
  - unfold Compiler.body_group_by. rewrite Hg, Ht. reflexivity.
  - destruct (QueryOptions.having fo) as [h|]; [|congruence].
    cbn. apply orb_true_iff; left. apply orb_true_iff; left. apply orb_true_r.
  - rewrite Ho. cbn.
    apply orb_true_iff; left. apply orb_true_r.
  - rewrite Hf. cbn [Compiler.body_filters option_map].
    apply orb_true_iff; right.
    apply existsb_exists. exists f. split; [exact Hin|].
    apply array_operator_spec; exact Hop.
Qed.

Lemma scalar_filters_stay_simple fo :
  (forall fs f, QueryOptions.filter fo = Some fs -> In f (as_array fs) ->
     In (FilterExpression.operator f) scalar_operators
     /\ Js.isArray (FilterExpression.value f) = false) ->
  (QueryOptions.order fo = None \/ exists s, QueryOptions.order fo = Some (OrderString s)) ->
  QueryOptions.group_by fo = None ->
  QueryOptions.having fo = None ->
  Compiler.hasAdvancedFeatures (Compiler.build_body fo) = false
  /\ Compiler.hasArrayValues
       (Js.or_default (Body.filters (Compiler.build_body fo)) []) = false.
Proof.
  intros Hf Ho Hg Hh.
  unfold Compiler.hasAdvancedFeatures, Compiler.build_body; cbn [Body.group_by
    Body.having Body.order_by Body.filters].
  rewrite Hg, Hh. cbn [Compiler.body_group_by Compiler.body_having option_map
    Compiler.is_some orb].
  assert (Hord : Compiler.order_by_isArray
                   (Compiler.body_order_by (QueryOptions.order fo)) = false).
  { destruct Ho as [Ho | [s Ho]]; rewrite Ho; cbn; [reflexivity|].
    destruct (Js.truthy_string s); reflexivity. }
  rewrite Hord. cbn [orb].
  destruct (QueryOptions.filter fo) as [fs|] eqn:Efs;
    cbn [Compiler.body_filters option_map Js.or_default]; [|split; reflexivity].
  split.
  - destruct (existsb _ (as_array fs)) eqn:Eex; [|reflexivity].
    apply existsb_exists in Eex. destruct Eex as [f [Hin Hop]].
    destruct (Hf fs f eq_refl Hin) as [Hs _]. cbn beta in Hop.
    rewrite (scalar_operator_not_array _ Hs) in Hop. discriminate.
  - unfold Compiler.hasArrayValues.
    destruct (existsb _ (as_array fs)) eqn:Eex; [|reflexivity].
    apply existsb_exists in Eex. destruct Eex as [f [Hin Hv]].
    destruct (Hf fs f eq_refl Hin) as [_ Hsc]. cbn beta in Hv.
    rewrite Hsc in Hv. discriminate.
Qed.

(** ** The choice between the advanced and the simple path *)

(** C1, as stated, fails: after [groupBy('')] a group-by value is stored
    in the accumulator, yet the empty string is falsy, [get] leaves
    [body.group_by] unset and sends a plain GET. *)
Lemma group_by_empty_string_goes_out_on_get :
  let self := QueryBuilder.new "users" |> QueryBuilder.groupBy (ColumnsString "") in
  QueryOptions.group_by (QueryBuilder.options self) = Some (ColumnsString "")
  /\ QueryBuilder.get empty_page_client None (QueryBuilder.mkState self []) =
     (inr (QueryResponse.mk [] 0 0 0 0),
      QueryBuilder.mkState self
        [GET "/users" (Params.mk None None None None None None)]).
Proof.
  split; reflexivity.
Qed.

(** C1 (amended): whenever the final options hold a group-by value that
    is an array or a non-empty string, or a having value, or an order in
    the array form, or a filter clause whose operator is one of
    in / not_in / between / not_between, [get] and [execute] do exactly one
    thing: they POST the JSON body to /{table}/query.  No GET is sent. *)
Theorem advanced_features_compile_to_post client additionalOptions st :
  (exists g, QueryOptions.group_by (final_options st additionalOptions) = Some g
             /\ Compiler.columns_truthy g = true)
  \/ QueryOptions.having (final_options st additionalOptions) <> None
  \/ (exists items,
        QueryOptions.order (final_options st additionalOptions) = Some (OrderItems items))
  \/ (exists fs f,
        QueryOptions.filter (final_options st additionalOptions) = Some fs
        /\ In f (as_array fs)
        /\ In (FilterExpression.operator f) array_operators) ->
  QueryBuilder.get client additionalOptions st =
    QueryBuilder.request client
      (POST (query_path st) (Compiler.build_body (final_options st additionalOptions))) st
  /\ QueryBuilder.execute client additionalOptions st =
    QueryBuilder.request client
      (POST (query_path st) (Compiler.build_body (final_options st additionalOptions))) st.
Proof.
  intros H. apply advanced_features_detected in H.
  unfold QueryBuilder.execute. rewrite get_request.
  fold (final_options st additionalOptions).
  rewrite (compile_advanced _ _ H). split; reflexivity.
Qed.

Lemma advanced_features_compile_to_post_witness :
  let st := QueryBuilder.mkState
              (QueryBuilder.new "products"
               |> QueryBuilder.in_ "category" [Js.Str "a"; Js.Str "b"]) [] in
  QueryBuilder.get empty_page_client None st =
    QueryBuilder.request empty_page_client
      (POST (query_path st) (Compiler.build_body (final_options st None))) st
  /\ QueryBuilder.execute empty_page_client None st =
    QueryBuilder.request empty_page_client
      (POST (query_path st) (Compiler.build_body (final_options st None))) st.
Proof.
  intros st.
  apply (advanced_features_compile_to_post empty_page_client None st).
  right; right; right.
  exists (Many [FilterExpression.mk "category" op_in
                  (Js.Arr [Js.Str "a"; Js.Str "b"]) (Some AND)]).
  exists (FilterExpression.mk "category" op_in
            (Js.Arr [Js.Str "a"; Js.Str "b"]) (Some AND)).
  split; [reflexivity|]. split; [left; reflexivity|]. left; reflexivity.
Defined.

(** C2: when every filter clause of the final options has an operator
    among eq / neq / gt / gte / lt / lte / like / is / is_not and a value that
    is not an array, the order is absent or a single column, and there is
    neither a group-by nor a having value, [get] and [execute] do exactly
    one thing: they GET /{table} with the query parameters.  No POST is
    sent. *)
Theorem scalar_queries_compile_to_get client additionalOptions st :
  (forall fs f,
     QueryOptions.filter (final_options st additionalOptions) = Some fs ->
     In f (as_array fs) ->
     In (FilterExpression.operator f) scalar_operators
     /\ Js.isArray (FilterExpression.value f) = false) ->
  (QueryOptions.order (final_options st additionalOptions) = None
   \/ exists s, QueryOptions.order (final_options st additionalOptions)
                = Some (OrderString s)) ->
  QueryOptions.group_by (final_options st additionalOptions) = None ->
  QueryOptions.having (final_options st additionalOptions) = None ->
  QueryBuilder.get client additionalOptions st =
    QueryBuilder.request client
      (GET (table_path st)
         (Compiler.build_params
            (Compiler.build_body (final_options st additionalOptions)))) st
  /\ QueryBuilder.execute client additionalOptions st =
    QueryBuilder.request client
      (GET (table_path st)
         (Compiler.build_params
            (Compiler.build_body (final_options st additionalOptions)))) st.
Proof.
  intros Hf Ho Hg Hh.
  destruct (scalar_filters_stay_simple _ Hf Ho Hg Hh) as [Hadv Harr].
  unfold QueryBuilder.execute. rewrite get_request.
  fold (final_options st additionalOptions).
  rewrite (compile_simple _ _ Hadv Harr). split; reflexivity.
Qed.

Lemma scalar_queries_compile_to_get_witness :
  let st := QueryBuilder.mkState
              (QueryBuilder.new "users"
               |> QueryBuilder.eq "status" (Js.Str "active")
               |> QueryBuilder.order "name" None) [] in
  QueryBuilder.get empty_page_client None st =
    QueryBuilder.request empty_page_client
      (GET (table_path st)
         (Compiler.build_params (Compiler.build_body (final_options st None)))) st
  /\ QueryBuilder.execute empty_page_client None st =
    QueryBuilder.request empty_page_client
      (GET (table_path st)
         (Compiler.build_params (Compiler.build_body (final_options st None)))) st.
Proof.
  intros st.
  apply (scalar_queries_compile_to_get empty_page_client None st).
  - intros fs f Hfs Hin. cbn in Hfs. injection Hfs as <-.
    destruct Hin as [<- | []]. split; [left; reflexivity | reflexivity].
  - right. exists "name"%string. reflexivity.
  - reflexivity.
  - reflexivity.
Defined.

(** C3: the code does not do this.
    [.filter('category','eq','electronics').or('price','gt',1000).get()],
    which is the README's chain for the OR operator written with [or],
    goes out as a GET whose flat filter string has lost the OR:
    [hasAdvancedFeatures] never looks at [logical_op]. *)
Theorem or_filter_goes_out_on_get client sent :
  let self := QueryBuilder.new "products"
              |> QueryBuilder.filter "category" op_eq (Js.Str "electronics") None
              |> QueryBuilder.or "price" op_gt (Js.Num 1000) in
  QueryOptions.filter (QueryBuilder.options self)
  = Some (Many [FilterExpression.mk "category" op_eq (Js.Str "electronics") (Some AND);
                FilterExpression.mk "price" op_gt (Js.Num 1000) (Some OR)])
  /\ QueryBuilder.get client None (QueryBuilder.mkState self sent) =
     QueryBuilder.request client
       (GET "/products"
          (Params.mk None (Some "category.eq.electronics,price.gt.1000"%string)
             None None None None))
       (QueryBuilder.mkState self sent).
Proof.
  intros self. split; [reflexivity|]. rewrite get_request. reflexivity.
Qed.

(** ** Two worked chains *)

(** C4: [.select(['id','name']).filter('age','gte',18)
    .order('created_at','desc').limit(10).get()] sends a GET to /{table}
    whose parameters are exactly select = "id,name", filter = "age.gte.18",
    order = "created_at", order_direction = "desc" and limit = 10; there is
    no offset parameter. *)
Theorem simple_chain_params client tableName sent :
  let self := Table.mk tableName
              |> Table.select (ColumnsArray ["id"; "name"]%string)
              |> QueryBuilder.filter "age" op_gte (Js.Num 18) None
              |> QueryBuilder.order "created_at" (Some desc)
              |> QueryBuilder.limit 10 in
  QueryBuilder.get client None (QueryBuilder.mkState self sent) =
  QueryBuilder.request client
    (GET ("/" ++ tableName)
       (Params.mk (Some "id,name"%string) (Some "age.gte.18"%string)
          (Some "created_at"%string) (Some desc) (Some 10%Z) None))
    (QueryBuilder.mkState self sent).
Proof.
  intros self. rewrite get_request. reflexivity.
Qed.

(** C5: [.filter('category','in',['a','b']).groupBy('category')
    .having('COUNT( * )','gt',5).get()] sends a POST to /{table}/query
    whose body holds filters = [{column:'category', operator:'in',
    value:['a','b'], logical_op:'AND'}], group_by = ['category'] and
    having = [{column:'COUNT( * )', operator:'gt', value:5}], and no other
    key.  (The aggregate is written with spaces here; the statement has
    the source's spelling.) *)
Theorem advanced_chain_body client tableName sent :
  let self := Table.mk tableName
              |> Table.filter "category" op_in (Js.Arr [Js.Str "a"; Js.Str "b"]) None
              |> QueryBuilder.groupBy (ColumnsString "category")
              |> QueryBuilder.having "COUNT(*)" hop_gt (Js.Num 5) in
  QueryBuilder.get client None (QueryBuilder.mkState self sent) =
  QueryBuilder.request client
    (POST ("/" ++ tableName ++ "/query")
       (Body.mk None
          (Some [FilterExpression.mk "category" op_in
                   (Js.Arr [Js.Str "a"; Js.Str "b"]) (Some AND)])
          (Some ["category"%string])
          (Some [HavingFilter.mk "COUNT(*)" hop_gt (Js.Num 5)])
          None None None None))
    (QueryBuilder.mkState self sent).
Proof.
  intros self. rewrite get_request. reflexivity.
Qed.

(** ** [first] *)

Lemma compile_keeps_limit tableName fo :
  request_limit (Compiler.compile tableName fo) = QueryOptions.limit fo.
Proof.
  unfold Compiler.compile.
  destruct (Compiler.hasAdvancedFeatures _); [reflexivity|].
  destruct (Compiler.has_filters _ && _); reflexivity.
Qed.

Lemma first_run client st :
  QueryBuilder.first client st =
  let self := QueryBuilder.limit 1 (QueryBuilder.this st) in
  let req := Compiler.compile (QueryBuilder.tableName self) (QueryBuilder.options self) in
  (match client (QueryBuilder.sent st) req with
   | inl e => inl e
   | inr result => inr (QueryBuilder.first_row result)
   end,
   QueryBuilder.mkState self (QueryBuilder.sent st ++ [req])).
Proof.
  unfold QueryBuilder.first, QueryBuilder.bind at 1, QueryBuilder.call.
  unfold QueryBuilder.bind. rewrite get_request.
  unfold QueryBuilder.request, QueryBuilder.ret. cbn.
  destruct (client _ _); reflexivity.
Qed.

(** C6: [first()] sends one request, the one compiled from the
    accumulated options with limit overwritten by 1, so the request
    carries limit = 1 whatever limit was stored before.  If the transport
    throws, [first] throws the same error; if it answers, [first] returns:
    null on an empty [data], a row or null otherwise. *)
Theorem first_forces_limit_and_tolerates_empty_page client st :
  let self := QueryBuilder.limit 1 (QueryBuilder.this st) in
  let req := Compiler.compile (QueryBuilder.tableName self) (QueryBuilder.options self) in
  request_limit req = Some 1%Z
  /\ QueryBuilder.sent (snd (QueryBuilder.first client st)) = QueryBuilder.sent st ++ [req]
  /\ match client (QueryBuilder.sent st) req with
     | inl e => fst (QueryBuilder.first client st) = inl e
     | inr result =>
         match QueryResponse.data result with
         | [] => fst (QueryBuilder.first client st) = inr Js.Null
         | row :: _ =>
             fst (QueryBuilder.first client st) =
             inr (if Js.truthy row then row else Js.Null)
         end
     end.
Proof.
  intros self req. rewrite first_run. subst req self. cbv zeta. cbn [fst snd].
  split; [|split].
  - rewrite compile_keeps_limit. reflexivity.
  - reflexivity.
  - destruct (client _ _) as [e | result]; [reflexivity|].
    unfold QueryBuilder.first_row.
    destruct (QueryResponse.data result); reflexivity.
Qed.

(** ** What a terminal call leaves in the accumulator *)

(** C7, as stated, fails for [first]: it calls [this.limit(1)], and the
    stored limit of 50 is 1 afterwards. *)
Lemma first_overwrites_stored_limit :
  let st := QueryBuilder.mkState (QueryBuilder.new "users" |> QueryBuilder.limit 50) [] in
  QueryOptions.limit (QueryBuilder.options (QueryBuilder.this st)) = Some 50%Z
  /\ QueryOptions.limit
       (QueryBuilder.options
          (QueryBuilder.this (snd (QueryBuilder.first empty_page_client st))))
     = Some 1%Z
  /\ QueryBuilder.options
       (QueryBuilder.this (snd (QueryBuilder.first empty_page_client st)))
     <> QueryBuilder.options (QueryBuilder.this st).
Proof.
  repeat split. cbn. discriminate.
Qed.

(** C7 (amended): [get] and [execute] leave the accumulator exactly as it
    was, for every overrides argument and whether the request fails or
    not, so it can be dispatched again with other overrides.  [first]
    leaves it as a call of [limit(1)] does: the stored limit is 1, every
    other stored option is as before. *)
Theorem terminal_calls_and_stored_options client additionalOptions st :
  QueryBuilder.this (snd (QueryBuilder.get client additionalOptions st))
  = QueryBuilder.this st
  /\ QueryBuilder.this (snd (QueryBuilder.execute client additionalOptions st))
     = QueryBuilder.this st
  /\ QueryBuilder.this (snd (QueryBuilder.first client st))
     = QueryBuilder.mk (QueryBuilder.tableName (QueryBuilder.this st))
         (QueryBuilder.set_limit 1 (QueryBuilder.options (QueryBuilder.this st))).
Proof.
  unfold QueryBuilder.execute. rewrite get_request, first_run.
  repeat split.
Qed.

(** C8: two calls of [get] with the same overrides, one after the other
    on the same accumulator, send the same request twice (same method,
    path and parameters or body), whatever the transport answers to the
    first one. *)
Theorem get_twice_sends_same_request client additionalOptions st :
  let st1 := snd (QueryBuilder.get client additionalOptions st) in
  let st2 := snd (QueryBuilder.get client additionalOptions st1) in
  exists req,
    QueryBuilder.sent st1 = QueryBuilder.sent st ++ [req]
    /\ QueryBuilder.sent st2 = QueryBuilder.sent st ++ [req; req]
    /\ QueryBuilder.this st2 = QueryBuilder.this st.
Proof.
  intros st1 st2. unfold st2, st1. rewrite !get_request. cbn.
  eexists. split; [reflexivity|]. split; [|reflexivity].
  rewrite <- app_assoc. reflexivity.
Qed.

(** ** Ordering calls *)

(** A call that gives its direction, and a call in the array form, decide
    the compiled order on their own. *)
Lemma order_with_direction_wins column direction self other :
  let a := QueryBuilder.order column direction self in
  let b := QueryBuilder.order column direction other in
  Body.order_by (Compiler.build_body (QueryBuilder.options a))
  = Body.order_by (Compiler.build_body (QueryBuilder.options b))
  /\ Body.order_direction (Compiler.build_body (QueryBuilder.options a))
     = Body.order_direction (Compiler.build_body (QueryBuilder.options b)).
Proof.
  split; reflexivity.
Qed.

Lemma orderBy_items_wins items direction self other :
  let a := QueryBuilder.orderBy (OrderItems items) direction self in
  let b := QueryBuilder.orderBy (OrderItems items) direction other in
  Body.order_by (Compiler.build_body (QueryBuilder.options a))
  = Body.order_by (Compiler.build_body (QueryBuilder.options b))
  /\ Body.order_direction (Compiler.build_body (QueryBuilder.options a))
     = Body.order_direction (Compiler.build_body (QueryBuilder.options b)).
Proof.
  split; reflexivity.
Qed.

(** C9: the code does not do this.  [orderBy('b')] after
    [orderBy('a','desc')] keeps the earlier call's direction: the request
    orders by b descending, where [orderBy('b')] alone orders by b
    ascending.  [order], the alias, overwrites the direction on every
    call. *)
Theorem orderBy_keeps_stale_direction client sent :
  let both := QueryBuilder.new "users"
              |> QueryBuilder.orderBy (OrderString "a") (Some desc)
              |> QueryBuilder.orderBy (OrderString "b") None in
  let last := QueryBuilder.new "users"
              |> QueryBuilder.orderBy (OrderString "b") None in
  QueryBuilder.get client None (QueryBuilder.mkState both sent) =
    QueryBuilder.request client
      (GET "/users" (Params.mk None None (Some "b"%string) (Some desc) None None))
      (QueryBuilder.mkState both sent)
  /\ QueryBuilder.get client None (QueryBuilder.mkState last sent) =
    QueryBuilder.request client
      (GET "/users" (Params.mk None None (Some "b"%string) (Some asc) None None))
      (QueryBuilder.mkState last sent).
Proof.
  intros both last. rewrite !get_request. split; reflexivity.
Qed.

(** ** Overrides *)

Lemma spread_override_wins {A : Type} (stored : option A) over :
  override_wins over stored (Js.spread stored over).
Proof.
  split.
  - intros v ->. reflexivity.
  - intros ->. reflexivity.
Qed.

(** C10: the overrides are spread over the accumulated options property
    by property: a property the overrides object has replaces the
    accumulated one whole, a property it lacks leaves the accumulated one
    in place, and [get] compiles its request from the result.  In
    particular a filter given in the overrides is the whole filter list
    of the request body: the filters of the chain are gone from it. *)
Theorem overrides_replace_accumulated_options client st over :
  let stored := QueryBuilder.options (QueryBuilder.this st) in
  let final := final_options st (Some over) in
  (forall fs, Overrides.filter over = Some (Some fs) ->
     Body.filters (Compiler.build_body final) = Some (as_array fs))
  /\ QueryBuilder.get client (Some over) st
     = QueryBuilder.request client
         (Compiler.compile (QueryBuilder.tableName (QueryBuilder.this st)) final) st
  /\ override_wins (Overrides.select over)
       (QueryOptions.select stored) (QueryOptions.select final)
  /\ override_wins (Overrides.filter over)
       (QueryOptions.filter stored) (QueryOptions.filter final)
  /\ override_wins (Overrides.group_by over)
       (QueryOptions.group_by stored) (QueryOptions.group_by final)
  /\ override_wins (Overrides.having over)
       (QueryOptions.having stored) (QueryOptions.having final)
  /\ override_wins (Overrides.order over)
       (QueryOptions.order stored) (QueryOptions.order final)
  /\ override_wins (Overrides.orderDirection over)
       (QueryOptions.orderDirection stored) (QueryOptions.orderDirection final)
  /\ override_wins (Overrides.limit over)
       (QueryOptions.limit stored) (QueryOptions.limit final)
  /\ override_wins (Overrides.offset over)
       (QueryOptions.offset stored) (QueryOptions.offset final).
Proof.
  intros stored final. split.
  - intros fs Hfs. unfold final, final_options, Compiler.merge, Compiler.build_body.
    cbn. rewrite Hfs. reflexivity.
  - split; [apply get_request|].
    unfold final, final_options, Compiler.merge; cbn.
    repeat apply conj; apply spread_override_wins.
Qed.

Lemma overrides_replace_accumulated_options_witness :
  let chain := QueryBuilder.new "users"
               |> QueryBuilder.eq "status" (Js.Str "active")
               |> QueryBuilder.gt "age" (Js.Num 18) in
  let given := FilterExpression.mk "id" op_eq (Js.Num 7) None in
  let over := Overrides.mk None (Some (Some (One given))) None None None None None None in
  Body.filters
    (Compiler.build_body (final_options (QueryBuilder.mkState chain []) (Some over)))
  = Some [given].
Proof.
  intros chain given over.
  apply (proj1 (overrides_replace_accumulated_options empty_page_client
                  (QueryBuilder.mkState chain []) over) (One given)).
  reflexivity.
Defined.

(** ** More of the JavaScript primitives on small inputs *)

Example endsWith_cases :
  (Js.endsWith "com" "wowsql.com", Js.endsWith "" "abc", Js.endsWith "abc" "bc",
   Js.endsWith "/api" "http://x/api")
  = (true, true, false, true).
Proof. reflexivity. Qed.

Example includes_cases :
  (Js.includes ".wowsql.com" "myproject.wowsql.com", Js.includes "" "",
   Js.includes "b" "abc", Js.includes "abcd" "abc")
  = (true, true, true, false).
Proof. reflexivity. Qed.

Example strip_slashes_cases :
  (Js.stripTrailingSlashes "http://x//", Js.stripTrailingSlashes "a/b",
   Js.stripTrailingSlashes "///", Js.stripTrailingSlash "http://x//",
   Js.stripTrailingSlash "/")
  = ("http://x", "a/b", "", "http://x/", "")%string.
Proof. reflexivity. Qed.

Example dropEnd_cases :
  (Js.dropEnd 4 "http://x/api", Js.dropEnd 4 "api") = ("http://x", "")%string.
Proof. reflexivity. Qed.

Example toFixed4_cases :
  map Storage.toFixed4 [1 # 2; 1 # 20000; - (1 # 100000); 123456789 # 1000;
                        Storage.bytes_to_GB 524288000]%Q
  = ["0.5000"; "0.0001"; "-0.0000"; "123456.7890"; "0.4883"]%string.
Proof. reflexivity. Qed.

Example form_encode_cases :
  Storage.form_encode "my folder/a&b=c~!*-._" = "my+folder%2Fa%26b%3Dc%7E%21*-._"%string.
Proof. reflexivity. Qed.

Example auth_url_cases :
  (Auth.buildAuthBaseUrl "myproject" None None,
   Auth.buildAuthBaseUrl "  https://x.test/api///  " None None,
   Auth.buildAuthBaseUrl "myproject.wowsql.com/" None (Some false),
   Auth.buildAuthBaseUrl "shop" (Some "example.org"%string) None)
  = ("https://myproject.wowsql.com/api/auth", "https://x.test/api/auth",
     "http://myproject.wowsql.com/api/auth", "https://shop.example.org/api/auth")%string.
Proof. reflexivity. Qed.

Example client_url_cases :
  (WowSQLClient.baseURL (WowSQLClient.mkConfig "myproject" "k" None None None),
   WowSQLClient.baseURL
     (WowSQLClient.mkConfig "myproject.wowsql.com" "k" None (Some false) None),
   WowSQLClient.baseURL
     (WowSQLClient.mkConfig "http://localhost:8000" "k" None None None))
  = ("https://myproject.wowsql.com/api/v2", "http://myproject.wowsql.com/api/v2",
     "http://localhost:8000/api/v2")%string.
Proof. reflexivity. Qed.

(** ** The path decision, complete *)

Lemma advanced_features_inv fo :
  Compiler.hasAdvancedFeatures (Compiler.build_body fo) = true ->
  (exists g, QueryOptions.group_by fo = Some g /\ Compiler.columns_truthy g = true)
  \/ QueryOptions.having fo <> None
  \/ (exists items, QueryOptions.order fo = Some (OrderItems items))
  \/ (exists fs f, QueryOptions.filter fo = Some fs /\ In f (as_array fs)
                   /\ In (FilterExpression.operator f) array_operators).
Proof.
  unfold Compiler.hasAdvancedFeatures, Compiler.build_body; cbn [Body.group_by
    Body.having Body.order_by Body.filters].
  intros H. repeat (apply orb_true_iff in H; destruct H as [H | H]).
  - left. unfold Compiler.body_group_by in H.
    destruct (QueryOptions.group_by fo) as [g|]; [|discriminate].
    exists g. split; [reflexivity|].
    destruct (Compiler.columns_truthy g); [reflexivity | discriminate].
  - right; left. destruct (QueryOptions.having fo); [discriminate | discriminate].
  - right; right; left. unfold Compiler.body_order_by in H.
    destruct (QueryOptions.order fo) as [[s | items]|]; cbn in H.
    + destruct (Js.truthy_string s); discriminate.
    + exists items. reflexivity.
    + discriminate.
  - right; right; right.
    destruct (QueryOptions.filter fo) as [fs|]; cbn [Compiler.body_filters option_map] in H;
      [|discriminate].
    apply existsb_exists in H. destruct H as [f [Hin Hop]].
    exists fs, f. split; [reflexivity|]. split; [exact Hin|].
    apply array_operator_spec. exact Hop.
Qed.

Lemma array_values_inv fo :
  Compiler.hasArrayValues
    (Js.or_default (Body.filters (Compiler.build_body fo)) []) = true ->
  exists fs f, QueryOptions.filter fo = Some fs /\ In f (as_array fs)
               /\ Js.isArray (FilterExpression.value f) = true.
Proof.
  unfold Compiler.build_body; cbn [Body.filters].
  destruct (QueryOptions.filter fo) as [fs|]; cbn; [|discriminate].
  intros H. apply existsb_exists in H. destruct H as [f [Hin Hv]].
  exists fs, f. auto.
Qed.

Lemma compile_needs_post tableName fo :
  needs_post fo ->
  Compiler.compile tableName fo =
  POST ("/" ++ tableName ++ "/query") (Compiler.build_body fo).
Proof.
  intros H. unfold Compiler.compile.
  destruct (Compiler.hasAdvancedFeatures (Compiler.build_body fo)) eqn:Hadv;
    [reflexivity|].
  destruct H as [H | [H | [H | [fs [f [Hfs [Hin [Hop | Hv]]]]]]]].
  - rewrite advanced_features_detected in Hadv; [discriminate | auto].
  - rewrite advanced_features_detected in Hadv; [discriminate | auto].
  - rewrite advanced_features_detected in Hadv; [discriminate | auto].
  - rewrite advanced_features_detected in Hadv; [discriminate|].
    right; right; right. exists fs, f. auto.
  - assert (Hfilters : Body.filters (Compiler.build_body fo) = Some (as_array fs)).
    { unfold Compiler.build_body; cbn. rewrite Hfs. reflexivity. }
    unfold Compiler.has_filters. rewrite Hfilters. cbn [Js.or_default].
    assert (Harr : Compiler.hasArrayValues (as_array fs) = true).
    { apply existsb_exists. exists f. auto. }
    rewrite Harr.
    destruct (as_array fs); [destruct Hin | reflexivity].
Qed.

Lemma compile_no_need_of_post tableName fo :
  ~ needs_post fo ->
  Compiler.compile tableName fo =
  GET ("/" ++ tableName) (Compiler.build_params (Compiler.build_body fo)).
Proof.
  intros H. apply compile_simple.
  - destruct (Compiler.hasAdvancedFeatures _) eqn:Hadv; [|reflexivity].
    exfalso. apply H. apply advanced_features_inv in Hadv.
    destruct Hadv as [Hg | [Hh | [Ho | [fs [f [Hfs [Hin Hop]]]]]]].
    + left; exact Hg.
    + right; left; exact Hh.
    + right; right; left; exact Ho.
    + right; right; right. exists fs, f. auto.
  - destruct (Compiler.hasArrayValues _) eqn:Harr; [|reflexivity].
    exfalso. apply H. apply array_values_inv in Harr.
    destruct Harr as [fs [f [Hfs [Hin Hv]]]].
    right; right; right. exists fs, f. auto.
Qed.

(** X1: the path [get] takes is decided by the final options alone, and
    completely: it POSTs the body to /{table}/query exactly when there is
    a truthy group-by, a having value, an order in the array form, or a
    filter clause with an array operator or an array value (the late
    re-route); in every other case it GETs /{table} with the flat
    parameters. *)
Theorem get_path_decision client additionalOptions st :
  (needs_post (final_options st additionalOptions) ->
   QueryBuilder.get client additionalOptions st =
   QueryBuilder.request client
     (POST (query_path st) (Compiler.build_body (final_options st additionalOptions)))
     st)
  /\ (~ needs_post (final_options st additionalOptions) ->
      QueryBuilder.get client additionalOptions st =
      QueryBuilder.request client
        (GET (table_path st)
           (Compiler.build_params
              (Compiler.build_body (final_options st additionalOptions))))
        st).
Proof.
  split; intros H; rewrite get_request; fold (final_options st additionalOptions).
  - rewrite (compile_needs_post _ _ H). reflexivity.
  - rewrite (compile_no_need_of_post _ _ H). reflexivity.
Qed.

Lemma get_path_decision_witness :
  let late := QueryBuilder.mkState
                (QueryBuilder.new "users"
                 |> QueryBuilder.eq "id" (Js.Arr [Js.Num 1; Js.Num 2])) [] in
  let plain := QueryBuilder.mkState
                 (QueryBuilder.new "users" |> QueryBuilder.eq "id" (Js.Num 1)) [] in
  QueryBuilder.get empty_page_client None late =
    QueryBuilder.request empty_page_client
      (POST "/users/query" (Compiler.build_body (final_options late None))) late
  /\ QueryBuilder.get empty_page_client None plain =
    QueryBuilder.request empty_page_client
      (GET "/users"
         (Params.mk None (Some "id.eq.1"%string) None None None None)) plain.
Proof.
  intros late plain. split.
  - apply (proj1 (get_path_decision empty_page_client None late)).
    right; right; right.
    exists (Many [FilterExpression.mk "id" op_eq (Js.Arr [Js.Num 1; Js.Num 2]) (Some AND)]).
    exists (FilterExpression.mk "id" op_eq (Js.Arr [Js.Num 1; Js.Num 2]) (Some AND)).
    split; [reflexivity|]. split; [left; reflexivity|]. right; reflexivity.
  - apply (proj2 (get_path_decision empty_page_client None plain)).
    intros [[g [Hg _]] | [Hh | [[items Ho] | [fs [f [Hfs [Hin [Hop | Hv]]]]]]]].
    + discriminate Hg.
    + apply Hh; reflexivity.
    + discriminate Ho.
    + cbn in Hfs. injection Hfs as <-. destruct Hin as [<- | []].
      cbn in Hop. intuition discriminate.
    + cbn in Hfs. injection Hfs as <-. destruct Hin as [<- | []].
      discriminate Hv.
Defined.

(** ** Limit and offset on the wire *)

Lemma compile_keeps_offset tableName fo :
  request_offset (Compiler.compile tableName fo) = QueryOptions.offset fo.
Proof.
  unfold Compiler.compile.
  destruct (Compiler.hasAdvancedFeatures _); [reflexivity|].
  destruct (Compiler.has_filters _ && _); reflexivity.
Qed.

(** X2: on either path the request of [get] carries the limit and the
    offset of the final options as they are: the tests are
    [!== undefined], so 0 is sent like any other number, and nothing
    rejects a negative one. *)
Theorem get_forwards_limit_and_offset client additionalOptions st :
  exists req,
    QueryBuilder.get client additionalOptions st = QueryBuilder.request client req st
    /\ request_limit req = QueryOptions.limit (final_options st additionalOptions)
    /\ request_offset req = QueryOptions.offset (final_options st additionalOptions).
Proof.
  eexists. split; [apply get_request|]. split.
  - apply compile_keeps_limit.
  - apply compile_keeps_offset.
Qed.


(** ** Filter and having clauses along a chain *)

(** X4: [filter] adds its clause as the last element of the stored
    list, with AND when no logical operator is given, keeps the clauses
    already there in their order, and touches no other option. *)
Theorem filter_appends_one_clause column operator value logical_op this :
  let after := QueryBuilder.filter column operator value logical_op this in
  stored_filters after
  = stored_filters this
    ++ [FilterExpression.mk column operator value (Some (Js.or_default logical_op AND))]
  /\ QueryBuilder.tableName after = QueryBuilder.tableName this
  /\ QueryOptions.select (QueryBuilder.options after)
     = QueryOptions.select (QueryBuilder.options this)
  /\ QueryOptions.group_by (QueryBuilder.options after)
     = QueryOptions.group_by (QueryBuilder.options this)
  /\ QueryOptions.having (QueryBuilder.options after)
     = QueryOptions.having (QueryBuilder.options this)
  /\ QueryOptions.order (QueryBuilder.options after)
     = QueryOptions.order (QueryBuilder.options this)
  /\ QueryOptions.orderDirection (QueryBuilder.options after)
     = QueryOptions.orderDirection (QueryBuilder.options this)
  /\ QueryOptions.limit (QueryBuilder.options after)
     = QueryOptions.limit (QueryBuilder.options this)
  /\ QueryOptions.offset (QueryBuilder.options after)
     = QueryOptions.offset (QueryBuilder.options this).
Proof.
  unfold stored_filters, QueryBuilder.filter.
  destruct (QueryOptions.filter (QueryBuilder.options this)) as [[f | l]|];
    cbn; repeat split.
Qed.

Lemma perform_filters c this :
  stored_filters (perform c this) = stored_filters this ++ filter_clauses [c].
Proof.
  destruct c; cbn [perform filter_clauses flat_map];
    try (rewrite app_nil_r).
  - unfold QueryBuilder.select.
    destruct columns as [|[s | l] [|]]; reflexivity.
  - apply filter_appends_one_clause.
  - reflexivity.
  - unfold stored_filters, QueryBuilder.having.
    destruct (QueryOptions.having (QueryBuilder.options this)) as [[h | l]|];
      reflexivity.
  - unfold QueryBuilder.orderBy. destruct column, direction; reflexivity.
  - reflexivity.
  - reflexivity.
  - reflexivity.
Qed.

Lemma perform_having c this :
  stored_having (perform c this) = stored_having this ++ having_clauses [c].
Proof.
  destruct c; cbn [perform having_clauses flat_map];
    try (rewrite app_nil_r).
  - unfold QueryBuilder.select.
    destruct columns as [|[s | l] [|]]; reflexivity.
  - unfold stored_having, QueryBuilder.filter.
    destruct (QueryOptions.filter (QueryBuilder.options this)) as [[f | l]|];
      reflexivity.
  - reflexivity.
  - unfold stored_having, QueryBuilder.having.
    destruct (QueryOptions.having (QueryBuilder.options this)) as [[h | l]|];
      reflexivity.
  - unfold QueryBuilder.orderBy. destruct column, direction; reflexivity.
  - reflexivity.
  - reflexivity.
  - reflexivity.
Qed.

Lemma perform_tableName c this :
  QueryBuilder.tableName (perform c this) = QueryBuilder.tableName this.
Proof.
  destruct c; cbn [perform]; try reflexivity.
  - unfold QueryBuilder.select.
    destruct columns as [|[s | l] [|]]; reflexivity.
  - unfold QueryBuilder.filter.
    destruct (QueryOptions.filter (QueryBuilder.options this)) as [[f | l]|];
      reflexivity.
  - unfold QueryBuilder.having.
    destruct (QueryOptions.having (QueryBuilder.options this)) as [[h | l]|];
      reflexivity.
  - unfold QueryBuilder.orderBy. destruct column, direction; reflexivity.
Qed.

Lemma filter_clauses_app a b :
  filter_clauses (a ++ b) = filter_clauses a ++ filter_clauses b.
Proof. unfold filter_clauses. apply flat_map_app. Qed.

Lemma having_clauses_app a b :
  having_clauses (a ++ b) = having_clauses a ++ having_clauses b.
Proof. unfold having_clauses. apply flat_map_app. Qed.

(** X5: along any chain of calls the stored filter list grows by the
    clauses of the [filter] calls, in call order, and the stored having
    list by those of the [having] calls; no call in between (select,
    groupBy, order, limit, offset) drops, reorders or rewrites a clause,
    and no call changes the table name. *)
Theorem chain_keeps_clauses_in_call_order calls this :
  stored_filters (chain calls this) = stored_filters this ++ filter_clauses calls
  /\ stored_having (chain calls this) = stored_having this ++ having_clauses calls
  /\ QueryBuilder.tableName (chain calls this) = QueryBuilder.tableName this.
Proof.
  revert this. induction calls as [|c calls IH]; intros this.
  - cbn. rewrite !app_nil_r. repeat split.
  - change (chain (c :: calls) this) with (chain calls (perform c this)).
    destruct (IH (perform c this)) as [Hf [Hh Ht]].
    rewrite Hf, Hh, Ht, perform_filters, perform_having, perform_tableName.
    change (c :: calls) with ([c] ++ calls).
    rewrite filter_clauses_app, having_clauses_app, <- !app_assoc.
    repeat split.
Qed.

(** X6: a [filter] call can stand anywhere among the calls of the other
    chain methods: swapping it with a neighbouring call that is not a
    [filter] call leaves the accumulator the same. *)
Theorem filter_commutes_with_other_calls column operator value logical_op c this :
  (forall column' operator' value' logical_op',
     c <> call_filter column' operator' value' logical_op') ->
  perform c (QueryBuilder.filter column operator value logical_op this)
  = QueryBuilder.filter column operator value logical_op (perform c this).
Proof.
  intros Hc. destruct this as [tableName o]. destruct o as [s f g h ord dir lim off].
  destruct c; cbn [perform].
  - unfold QueryBuilder.select.
    destruct columns as [|[x | l] [|]]; destruct f as [[f1 | fl]|]; reflexivity.
  - exfalso. eapply Hc. reflexivity.
  - destruct f as [[f1 | fl]|]; reflexivity.
  - destruct f as [[f1 | fl]|]; destruct h as [[h1 | hl]|]; reflexivity.
  - destruct column0, direction; destruct f as [[f1 | fl]|]; reflexivity.
  - destruct f as [[f1 | fl]|]; reflexivity.
  - destruct f as [[f1 | fl]|]; reflexivity.
  - destruct f as [[f1 | fl]|]; reflexivity.
Qed.

Lemma filter_commutes_with_other_calls_witness :
  QueryBuilder.new "users" |> QueryBuilder.eq "status" (Js.Str "active")
                           |> QueryBuilder.limit 5
  = (QueryBuilder.new "users" |> QueryBuilder.limit 5
                              |> QueryBuilder.eq "status" (Js.Str "active")).
Proof.
  apply (filter_commutes_with_other_calls "status" op_eq (Js.Str "active") None
           (call_limit 5) (QueryBuilder.new "users")).
  discriminate.
Defined.

(** ** Ordering calls that name their direction *)

(** X7: [order(column, direction)], [orderBy(column, direction)] with a
    direction, and [orderBy] in the array form each decide the order of
    the compiled body on their own: [order_by] and [order_direction] come
    out the same after any two histories. *)
Theorem explicit_order_call_decides_order self other :
  (forall column direction,
     let a := QueryBuilder.order column direction self in
     let b := QueryBuilder.order column direction other in
     Body.order_by (Compiler.build_body (QueryBuilder.options a))
     = Body.order_by (Compiler.build_body (QueryBuilder.options b))
     /\ Body.order_direction (Compiler.build_body (QueryBuilder.options a))
        = Body.order_direction (Compiler.build_body (QueryBuilder.options b)))
  /\ (forall column direction,
        let a := QueryBuilder.orderBy (OrderString column) (Some direction) self in
        let b := QueryBuilder.orderBy (OrderString column) (Some direction) other in
        Body.order_by (Compiler.build_body (QueryBuilder.options a))
        = Body.order_by (Compiler.build_body (QueryBuilder.options b))
        /\ Body.order_direction (Compiler.build_body (QueryBuilder.options a))
           = Body.order_direction (Compiler.build_body (QueryBuilder.options b)))
  /\ (forall items direction,
        let a := QueryBuilder.orderBy (OrderItems items) direction self in
        let b := QueryBuilder.orderBy (OrderItems items) direction other in
        Body.order_by (Compiler.build_body (QueryBuilder.options a))
        = Body.order_by (Compiler.build_body (QueryBuilder.options b))
        /\ Body.order_direction (Compiler.build_body (QueryBuilder.options a))
           = Body.order_direction (Compiler.build_body (QueryBuilder.options b))).
Proof.
  repeat split.
Qed.

(** ** What the flat filter string cannot tell apart *)

Lemma existsb_map_compose {A B : Type} (p : B -> bool) (h : A -> B) l :
  existsb p (map h l) = existsb (fun x => p (h x)) l.
Proof.
  induction l as [|x l IH]; cbn; [reflexivity|]. rewrite IH. reflexivity.
Qed.

Lemma relabel_body_but_filters g fo :
  let b := Compiler.build_body fo in
  let b' := Compiler.build_body (relabel g fo) in
  Body.select b' = Body.select b /\ Body.group_by b' = Body.group_by b
  /\ Body.having b' = Body.having b /\ Body.order_by b' = Body.order_by b
  /\ Body.order_direction b' = Body.order_direction b
  /\ Body.limit b' = Body.limit b /\ Body.offset b' = Body.offset b
  /\ Body.filters b'
     = option_map (map (fun f => with_logical_op (g f) f)) (Body.filters b).
Proof.
  destruct fo as [s f gby h ord dir lim off]. unfold relabel.
  destruct f as [[f1 | fl]|]; cbn; repeat split.
Qed.

Lemma relabel_compile_get g tableName fo path params :
  Compiler.compile tableName fo = GET path params ->
  Compiler.compile tableName (relabel g fo) = GET path params.
Proof.
  destruct (relabel_body_but_filters g fo)
    as (Hs & Hg & Hh & Ho & Hd & Hl & Hoff & Hf).
  unfold Compiler.compile, Compiler.hasAdvancedFeatures, Compiler.has_filters,
    Compiler.build_params.
  rewrite Hs, Hg, Hh, Ho, Hd, Hl, Hoff, Hf.
  destruct (Body.filters (Compiler.build_body fo)) as [fs|];
    cbn [option_map Js.or_default].
  - unfold Compiler.hasArrayValues.
    rewrite !existsb_map_compose, length_map, map_map. cbn [with_logical_op
      FilterExpression.operator FilterExpression.value].
    assert (Htok : map (fun x => Compiler.filter_token (with_logical_op (g x) x)) fs
                   = map Compiler.filter_token fs) by (apply map_ext; reflexivity).
    rewrite Htok.
    destruct (_ || existsb _ fs); [discriminate|].
    destruct (_ && existsb _ fs); [discriminate|].
    trivial.
  - destruct (_ || false); [discriminate|]. trivial.
Qed.

(** X8: on the simple path the request does not depend on the logical
    operator of any clause: if the final options compile to a GET, the
    same options with the AND / OR of every clause chosen differently
    compile to that very GET. *)
Theorem simple_path_ignores_logical_op client g st path params :
  let st' := QueryBuilder.mkState
               (QueryBuilder.update (relabel g) (QueryBuilder.this st))
               (QueryBuilder.sent st) in
  Compiler.compile (QueryBuilder.tableName (QueryBuilder.this st))
    (QueryBuilder.options (QueryBuilder.this st)) = GET path params ->
  QueryBuilder.get client None st = QueryBuilder.request client (GET path params) st
  /\ QueryBuilder.get client None st' = QueryBuilder.request client (GET path params) st'.
Proof.
  intros st' H. rewrite !get_request. cbn [Compiler.merge].
  split; [rewrite H; reflexivity|].
  unfold st'. cbn [QueryBuilder.this QueryBuilder.update QueryBuilder.tableName
    QueryBuilder.options].
  rewrite (relabel_compile_get g _ _ _ _ H). reflexivity.
Qed.

Lemma simple_path_ignores_logical_op_witness :
  let st := QueryBuilder.mkState
              (QueryBuilder.new "users"
               |> QueryBuilder.eq "a" (Js.Num 1)
               |> QueryBuilder.eq "b" (Js.Num 2)) [] in
  let st' := QueryBuilder.mkState
               (QueryBuilder.new "users"
                |> QueryBuilder.or "a" op_eq (Js.Num 1)
                |> QueryBuilder.or "b" op_eq (Js.Num 2)) [] in
  QueryBuilder.get empty_page_client None st' =
  QueryBuilder.request empty_page_client
    (GET "/users" (Params.mk None (Some "a.eq.1,b.eq.2"%string) None None None None))
    st'.
Proof.
  intros st st'.
  apply (proj2 (simple_path_ignores_logical_op empty_page_client
                  (fun _ => Some OR) st "/users"
                  (Params.mk None (Some "a.eq.1,b.eq.2"%string) None None None None)
                  eq_refl)).
Defined.

Lemma string_app_assoc (a b c : string) :
  ((a ++ b) ++ c)%string = (a ++ (b ++ c))%string.
Proof.
  induction a as [|x a IH]; cbn; [reflexivity|]. rewrite IH. reflexivity.
Qed.

Lemma glued_token column operator v l1 l2 f :
  Compiler.filter_token
    (FilterExpression.mk column operator
       (Js.Str (v ++ "," ++ Compiler.filter_token f)) l1)
  = (Compiler.filter_token (FilterExpression.mk column operator (Js.Str v) l2)
     ++ "," ++ Compiler.filter_token f)%string.
Proof.
  unfold Compiler.filter_token at 1 3. cbn [FilterExpression.column
    FilterExpression.operator FilterExpression.value Js.to_string].
  rewrite !string_app_assoc. reflexivity.
Qed.

Lemma params_filter_set_filter l fo :
  Params.filter
    (Compiler.build_params (Compiler.build_body (QueryBuilder.set_filter (Many l) fo)))
  = if (0 <? List.length l)%nat
    then Some (Js.join "," (map Compiler.filter_token l))
    else None.
Proof. reflexivity. Qed.

(** X9: the flat filter string does not escape values.  A clause whose
    string value continues with a comma and the token of a clause [f]
    compiles to the same filter parameter as the two clauses, the shorter
    value and then [f]: on the simple path the two filter lists are the
    same request. *)
Theorem comma_in_value_reads_as_next_clause column operator v l1 l2 f rest fo :
  let glued := FilterExpression.mk column operator
                 (Js.Str (v ++ "," ++ Compiler.filter_token f)) l1 in
  let short := FilterExpression.mk column operator (Js.Str v) l2 in
  Params.filter
    (Compiler.build_params
       (Compiler.build_body (QueryBuilder.set_filter (Many (glued :: rest)) fo)))
  = Params.filter
      (Compiler.build_params
         (Compiler.build_body
            (QueryBuilder.set_filter (Many (short :: f :: rest)) fo)))
  /\ forall tableName path params,
       Compiler.compile tableName
         (QueryBuilder.set_filter (Many (short :: f :: rest)) fo) = GET path params ->
       Compiler.compile tableName
         (QueryBuilder.set_filter (Many (glued :: rest)) fo) = GET path params.
Proof.
  intros glued short.
  assert (Hjoin : Js.join "," (map Compiler.filter_token (glued :: rest))
                  = Js.join "," (map Compiler.filter_token (short :: f :: rest))).
  { unfold glued, short. cbn [map]. rewrite (glued_token _ _ _ l1 l2).
    unfold Js.join. destruct rest as [|r rest]; cbn [map String.concat].
    - reflexivity.
    - rewrite !string_app_assoc. reflexivity. }
  split.
  - rewrite !params_filter_set_filter.
    change (0 <? List.length (glued :: rest))%nat with true.
    change (0 <? List.length (short :: f :: rest))%nat with true.
    cbn iota. rewrite Hjoin. reflexivity.
  - intros tableName path params.
    unfold Compiler.compile, Compiler.hasAdvancedFeatures, Compiler.has_filters,
      Compiler.hasArrayValues, Compiler.build_params.
    destruct fo as [s fl gby h ord dir lim off].
    cbn [Compiler.build_body QueryBuilder.set_filter QueryOptions.select
      QueryOptions.filter QueryOptions.group_by QueryOptions.having
      QueryOptions.order QueryOptions.orderDirection QueryOptions.limit
      QueryOptions.offset Body.select Body.filters Body.group_by Body.having
      Body.order_by Body.order_direction Body.limit Body.offset
      Compiler.body_filters option_map as_array Js.or_default].
    rewrite Hjoin.
    cbn [existsb List.length Nat.ltb Nat.leb andb].
    unfold glued, short. cbn [FilterExpression.operator FilterExpression.value
      Js.isArray orb].
    destruct (Compiler.is_some (Compiler.body_group_by gby)
              || Compiler.is_some (Compiler.body_having h)
              || Compiler.order_by_isArray (Compiler.body_order_by ord)); cbn [orb];
      [discriminate|].
    destruct (Compiler.is_array_operator operator); cbn [orb]; [discriminate|].
    destruct (Compiler.is_array_operator (FilterExpression.operator f)); cbn [orb];
      [discriminate|].
    destruct (existsb _ rest); [discriminate|].
    destruct (Js.isArray (FilterExpression.value f)); cbn [orb]; [discriminate|].
    destruct (existsb _ rest); [discriminate|].
    trivial.
Qed.

Lemma comma_in_value_reads_as_next_clause_witness :
  Compiler.compile "users"
    (QueryBuilder.options
       (QueryBuilder.new "users"
        |> QueryBuilder.eq "name" (Js.Str "x,role.eq.admin")))
  = GET "/users"
      (Params.mk None (Some "name.eq.x,role.eq.admin"%string) None None None None).
Proof.
  apply (proj2 (comma_in_value_reads_as_next_clause "name" op_eq "x" (Some AND)
                  (Some AND)
                  (FilterExpression.mk "role" op_eq (Js.Str "admin") (Some AND))
                  [] QueryOptions.empty) "users"%string).
  reflexivity.
Defined.

(** ** Column lists given as one string *)

Lemma split_comma_free s :
  comma_free s = true -> Js.split "," s = [s].
Proof.
  induction s as [|c s IH]; cbn; [reflexivity|].
  intros H. apply andb_true_iff in H. destruct H as [Hc Hs].
  apply negb_true_iff in Hc. rewrite Hc, (IH Hs). reflexivity.
Qed.

Lemma split_comma_free_app s rest :
  comma_free s = true ->
  Js.split "," (s ++ "," ++ rest) = s :: Js.split "," rest.
Proof.
  induction s as [|c s IH]; cbn.
  - reflexivity.
  - intros H. apply andb_true_iff in H. destruct H as [Hc Hs].
    apply negb_true_iff in Hc. rewrite Hc. cbn in IH. rewrite (IH Hs). reflexivity.
Qed.

Lemma split_join cols :
  cols <> [] ->
  Forall (fun c => comma_free c = true) cols ->
  Js.split "," (Js.join "," cols) = cols.
Proof.
  unfold Js.join. induction cols as [|c cols IH]; [congruence|].
  intros _ Hall. inversion Hall as [|? ? Hc Hrest]; subst.
  destruct cols as [|d cols].
  - cbn. apply split_comma_free. exact Hc.
  - change (String.concat "," (c :: d :: cols))
      with (c ++ "," ++ String.concat "," (d :: cols))%string.
    rewrite (split_comma_free_app _ _ Hc), IH; [reflexivity | discriminate | exact Hrest].
Qed.

Lemma split_trim_join cols :
  cols <> [] ->
  Forall (fun c => comma_free c = true /\ Js.trim c = c) cols ->
  Compiler.split_trim (Js.join "," cols) = cols.
Proof.
  intros Hne Hall. unfold Compiler.split_trim.
  assert (Htrim : map Js.trim cols = cols).
  { clear Hne. induction Hall as [|c cols [_ Ht] _ IH]; cbn; [reflexivity|].
    rewrite Ht, IH. reflexivity. }
  rewrite split_join; [exact Htrim | exact Hne |].
  eapply Forall_impl; [|exact Hall]. cbn. intros c [Hc _]. exact Hc.
Qed.

(** X10: a column list can be given to [select] and to [groupBy] as one
    comma-separated string or as an array, to the same effect: when no
    column contains a comma or has white space at its ends, and the joined
    string is not empty, the two forms compile to the same request. *)
Theorem joined_columns_compile_like_the_array cols tableName this :
  cols <> [] ->
  Forall (fun c => comma_free c = true /\ Js.trim c = c) cols ->
  Js.join "," cols <> ""%string ->
  Compiler.compile tableName
    (QueryBuilder.options
       (QueryBuilder.select [ColumnsString (Js.join "," cols)] this))
  = Compiler.compile tableName
      (QueryBuilder.options (QueryBuilder.select [ColumnsArray cols] this))
  /\ Compiler.compile tableName
       (QueryBuilder.options
          (QueryBuilder.groupBy (ColumnsString (Js.join "," cols)) this))
     = Compiler.compile tableName
         (QueryBuilder.options (QueryBuilder.groupBy (ColumnsArray cols) this)).
Proof.
  intros Hne Hall Hjoin.
  assert (Htruthy : Js.truthy_string (Js.join "," cols) = true).
  { unfold Js.truthy_string. apply negb_true_iff. apply String.eqb_neq. exact Hjoin. }
  pose proof (split_trim_join cols Hne Hall) as Hsplit.
  split.
  - assert (Hbody : Compiler.build_body
                      (QueryBuilder.options
                         (QueryBuilder.select [ColumnsString (Js.join "," cols)] this))
                    = Compiler.build_body
                        (QueryBuilder.options
                           (QueryBuilder.select [ColumnsArray cols] this))).
    { unfold Compiler.build_body. cbn. rewrite Htruthy, Hsplit. reflexivity. }
    unfold Compiler.compile. rewrite Hbody. reflexivity.
  - assert (Hbody : Compiler.build_body
                      (QueryBuilder.options
                         (QueryBuilder.groupBy (ColumnsString (Js.join "," cols)) this))
                    = Compiler.build_body
                        (QueryBuilder.options
                           (QueryBuilder.groupBy (ColumnsArray cols) this))).
    { unfold Compiler.build_body. cbn. rewrite Htruthy, Hsplit. reflexivity. }
    unfold Compiler.compile. rewrite Hbody. reflexivity.
Qed.

Lemma joined_columns_compile_like_the_array_witness :
  Compiler.compile "users"
    (QueryBuilder.options
       (QueryBuilder.select [ColumnsString "id,name"] (QueryBuilder.new "users")))
  = Compiler.compile "users"
      (QueryBuilder.options
         (QueryBuilder.select [ColumnsArray ["id"; "name"]%string]
            (QueryBuilder.new "users"))).
Proof.
  apply (proj1 (joined_columns_compile_like_the_array ["id"; "name"]%string "users"
                  (QueryBuilder.new "users")
                  ltac:(discriminate)
                  ltac:(repeat constructor)
                  ltac:(discriminate))).
Defined.

(** ** The options object and the chain *)

Lemma merge_overrides_of o :
  Compiler.merge QueryOptions.empty (Some (overrides_of o)) = o.
Proof. destruct o; reflexivity. Qed.

(** X11: [table.get(options)] with an options object is the same query
    as the chain that stores those options: for every accumulator built
    on the table, passing its options to [Table.get] sends the request
    that its own [get()] sends, and [Table.get] leaves nothing behind. *)
Theorem table_get_matches_chain client (self : QueryBuilder.t) st :
  let tbl := Table.mk (QueryBuilder.tableName self) in
  exists req,
    QueryBuilder.get client None (QueryBuilder.mkState self (QueryBuilder.sent st))
    = QueryBuilder.request client req
        (QueryBuilder.mkState self (QueryBuilder.sent st))
    /\ Table.get client (Some (overrides_of (QueryBuilder.options self))) tbl st
       = QueryBuilder.request client req st.
Proof.
  intros tbl. eexists. split; [apply get_request|].
  unfold Table.get. rewrite get_request.
  cbn [QueryBuilder.request QueryBuilder.this QueryBuilder.sent QueryBuilder.new
    QueryBuilder.options QueryBuilder.tableName Table.tableName tbl].
  rewrite merge_overrides_of. reflexivity.
Qed.

(** ** The client's base URL *)

(** X12: whatever the configuration, the base URL the constructor
    builds starts with http:// or https://, and it is stable: a client
    configured with that URL as its project URL gets the same base URL,
    whatever its other settings. *)
Theorem baseUrl_has_scheme_and_is_stable config :
  Js.startsWith "http://" (WowSQLClient.baseUrl config)
  || Js.startsWith "https://" (WowSQLClient.baseUrl config) = true
  /\ forall config',
       WowSQLClient.projectUrl config' = WowSQLClient.baseUrl config ->
       WowSQLClient.baseUrl config' = WowSQLClient.baseUrl config.
Proof.
  assert (Hscheme : Js.startsWith "http://" (WowSQLClient.baseUrl config)
                    || Js.startsWith "https://" (WowSQLClient.baseUrl config) = true).
  { unfold WowSQLClient.baseUrl.
    destruct (Js.startsWith "http://" (WowSQLClient.projectUrl config)
              || Js.startsWith "https://" (WowSQLClient.projectUrl config)) eqn:Hfull;
      [exact Hfull|].
    unfold WowSQLClient.protocol.
    destruct (Js.includes _ _ || Js.endsWith _ _);
      destruct (WowSQLClient.secure config) as [[|]|]; cbn;
      destruct (WowSQLClient.projectUrl config); reflexivity. }
  split; [exact Hscheme|].
  intros config' Hurl. unfold WowSQLClient.baseUrl at 1.
  rewrite Hurl, Hscheme. reflexivity.
Qed.

Lemma baseUrl_has_scheme_and_is_stable_witness :
  let config := WowSQLClient.mkConfig "myproject" "key" None None None in
  WowSQLClient.baseUrl
    (WowSQLClient.mkConfig "https://myproject.wowsql.com" "other" (Some "example.org"%string)
       (Some false) None)
  = WowSQLClient.baseUrl config.
Proof.
  intros config.
  apply (proj2 (baseUrl_has_scheme_and_is_stable config)). reflexivity.
Defined.

(** ** Strings: facts about the JavaScript primitives *)

Lemma prefix_empty s : String.prefix "" s = true.
Proof. destruct s; reflexivity. Qed.

Lemma prefix_app p u x :
  String.prefix p u = true -> String.prefix p (u ++ x) = true.
Proof.
  revert p. induction u as [|b u IH]; intros p; cbn.
  - destruct p; [intros _; apply prefix_empty | discriminate].
  - destruct p as [|a p]; [reflexivity|].
    destruct (ascii_dec a b); [apply IH | discriminate].
Qed.

Lemma startsWith_scheme_app u x :
  Js.startsWith "http://" u || Js.startsWith "https://" u = true ->
  Js.startsWith "http://" (u ++ x) || Js.startsWith "https://" (u ++ x) = true.
Proof.
  unfold Js.startsWith. intros H. apply orb_true_iff in H. apply orb_true_iff.
  destruct H as [H | H]; [left | right]; apply prefix_app; exact H.
Qed.

Lemma trimStart_scheme u :
  Js.startsWith "http://" u || Js.startsWith "https://" u = true ->
  Js.trimStart u = u.
Proof.
  unfold Js.startsWith. destruct u as [|c u]; [discriminate|].
  intros H. cbn [Js.trimStart].
  destruct (Js.is_whitespace c) eqn:Hws; [|reflexivity].
  exfalso. cbn [String.prefix] in H.
  destruct (ascii_dec "h" c) as [<- | Hne].
  - vm_compute in Hws. discriminate Hws.
  - discriminate H.
Qed.

Lemma trimEnd_app a b :
  b <> ""%string -> Js.trimEnd b = b -> Js.trimEnd (a ++ b) = (a ++ b)%string.
Proof.
  intros Hb Hkeep. induction a as [|c a IH]; cbn; [exact Hkeep|].
  rewrite IH. destruct (a ++ b)%string eqn:Hab; [|reflexivity].
  destruct a; cbn in Hab; [congruence | discriminate].
Qed.

Lemma trimEnd_slashes n : Js.trimEnd (slashes (S n)) = slashes (S n).
Proof.
  induction n as [|n IH]; [reflexivity|].
  change (slashes (S (S n))) with (String "/" (slashes (S n))).
  cbn [Js.trimEnd]. rewrite IH. reflexivity.
Qed.

Lemma strip_slashes_only n : Js.stripTrailingSlashes (slashes n) = ""%string.
Proof.
  induction n as [|n IH]; [reflexivity|]. cbn. rewrite IH. reflexivity.
Qed.

Lemma strip_app_slashes u n :
  Js.stripTrailingSlashes (u ++ slashes n) = Js.stripTrailingSlashes u.
Proof.
  induction u as [|c u IH]; cbn.
  - apply strip_slashes_only.
  - rewrite IH. reflexivity.
Qed.

Lemma strip_app_kept a b :
  b <> ""%string -> Js.stripTrailingSlashes b = b ->
  Js.stripTrailingSlashes (a ++ b) = (a ++ b)%string.
Proof.
  intros Hb Hkeep. induction a as [|c a IH]; cbn; [exact Hkeep|].
  rewrite IH. destruct (a ++ b)%string eqn:Hab; [|reflexivity].
  destruct a; cbn in Hab; [congruence | discriminate].
Qed.

Lemma endsWith_app a b : Js.endsWith b (a ++ b) = true.
Proof.
  induction a as [|c a IH]; cbn.
  - destruct b; cbn; rewrite ?String.eqb_refl, ?Ascii.eqb_refl; reflexivity.
  - rewrite IH. apply orb_true_r.
Qed.

Lemma length_app (a b : string) :
  String.length (a ++ b) = String.length a + String.length b.
Proof.
  induction a as [|c a IH]; cbn; [reflexivity|]. rewrite IH. reflexivity.
Qed.

Lemma substring_prefix a b :
  String.substring 0 (String.length a) (a ++ b) = a.
Proof.
  induction a as [|c a IH]; cbn.
  - destruct b; reflexivity.
  - rewrite IH. reflexivity.
Qed.

Lemma dropEnd_app a b : Js.dropEnd (String.length b) (a ++ b) = a.
Proof.
  unfold Js.dropEnd. rewrite length_app.
  replace (String.length a + String.length b - String.length b)
    with (String.length a) by (symmetry; apply Nat.add_sub).
  apply substring_prefix.
Qed.

Lemma string_app_empty_r (s : string) : (s ++ "")%string = s.
Proof.
  induction s as [|c s IH]; cbn; [reflexivity|]. rewrite IH. reflexivity.
Qed.

Lemma trim_scheme_app u b :
  Js.startsWith "http://" u || Js.startsWith "https://" u = true ->
  b <> ""%string -> Js.trimEnd b = b ->
  Js.trim (u ++ b) = (u ++ b)%string.
Proof.
  intros Hscheme Hb Hkeep. unfold Js.trim.
  rewrite (trimStart_scheme _ (startsWith_scheme_app u b Hscheme)).
  apply trimEnd_app; assumption.
Qed.

(** ** The auth base URL *)

(** X13: for a project URL given in full (with its scheme, and with no
    white space around it), slashes at its end do not matter: the auth
    base URL is the same with any number of them added. *)
Theorem auth_url_ignores_trailing_slashes u n baseDomain secure :
  Js.trim u = u ->
  Js.startsWith "http://" u || Js.startsWith "https://" u = true ->
  Auth.buildAuthBaseUrl (u ++ slashes n) baseDomain secure
  = Auth.buildAuthBaseUrl u baseDomain secure.
Proof.
  intros Htrim Hscheme. destruct n as [|n].
  - cbn [slashes]. rewrite string_app_empty_r. reflexivity.
  - unfold Auth.buildAuthBaseUrl.
    rewrite (trim_scheme_app u (slashes (S n)) Hscheme);
      [|discriminate | apply trimEnd_slashes].
    rewrite Htrim, (startsWith_scheme_app u (slashes (S n)) Hscheme), Hscheme.
    cbv zeta. rewrite strip_app_slashes. reflexivity.
Qed.

Lemma auth_url_ignores_trailing_slashes_witness :
  Auth.buildAuthBaseUrl "https://myproject.wowsql.com//" None None
  = Auth.buildAuthBaseUrl "https://myproject.wowsql.com" None None.
Proof.
  apply (auth_url_ignores_trailing_slashes "https://myproject.wowsql.com" 2 None None);
    reflexivity.
Defined.

(** X14: a project URL given in full that already ends in /api is not
    given /api twice: the auth base URL is that URL followed by /auth,
    whatever the domain and secure settings. *)
Theorem auth_url_absorbs_api_suffix u baseDomain secure :
  Js.startsWith "http://" u || Js.startsWith "https://" u = true ->
  Auth.buildAuthBaseUrl (u ++ "/api") baseDomain secure = (u ++ "/api/auth")%string.
Proof.
  intros Hscheme. unfold Auth.buildAuthBaseUrl.
  rewrite (trim_scheme_app u "/api" Hscheme); [|discriminate | reflexivity].
  rewrite (startsWith_scheme_app u "/api" Hscheme). cbv zeta.
  rewrite (strip_app_kept u "/api"); [|discriminate | reflexivity].
  rewrite endsWith_app.
  change 4 with (String.length "/api"). rewrite dropEnd_app. reflexivity.
Qed.

Lemma auth_url_absorbs_api_suffix_witness :
  Auth.buildAuthBaseUrl "http://localhost:8000/api" (Some "example.org"%string) (Some false)
  = "http://localhost:8000/api/auth"%string.
Proof.
  apply (auth_url_absorbs_api_suffix "http://localhost:8000"). reflexivity.
Defined.

(** X15: the database client and the auth client derive the same origin
    from the same settings: when the project URL has no white space
    around it, the base domain is not the empty string, and the database
    client's base URL neither ends in a slash nor in /api, the auth base
    URL is that base URL followed by /api/auth (the database client uses
    it followed by /api/v2). *)
Theorem auth_url_agrees_with_client_url config :
  Js.trim (WowSQLClient.projectUrl config) = WowSQLClient.projectUrl config ->
  WowSQLClient.baseDomain config <> Some ""%string ->
  Js.stripTrailingSlashes (WowSQLClient.baseUrl config) = WowSQLClient.baseUrl config ->
  Js.endsWith "/api" (WowSQLClient.baseUrl config) = false ->
  Auth.buildAuthBaseUrl (WowSQLClient.projectUrl config)
    (WowSQLClient.baseDomain config) (WowSQLClient.secure config)
  = (WowSQLClient.baseUrl config ++ "/api/auth")%string.
Proof.
  intros Htrim Hdomain.
  assert (Hd : Js.or_default (WowSQLClient.baseDomain config) "wowsql.com"%string
               = WowSQLClient.domain config).
  { unfold WowSQLClient.domain.
    destruct (WowSQLClient.baseDomain config) as [d|]; cbn; [|reflexivity].
    destruct (Js.truthy_string d) eqn:Ht; [reflexivity|].
    exfalso. apply Hdomain. f_equal.
    unfold Js.truthy_string in Ht. apply negb_false_iff in Ht.
    apply String.eqb_eq. exact Ht. }
  assert (Hp : (if Js.or_default (WowSQLClient.secure config) true
                then "https"%string else "http"%string)
               = WowSQLClient.protocol config).
  { unfold WowSQLClient.protocol.
    destruct (WowSQLClient.secure config) as [[|]|]; reflexivity. }
  unfold Auth.buildAuthBaseUrl, WowSQLClient.baseUrl.
  rewrite Htrim, Hd, Hp. cbv zeta.
  destruct (Js.startsWith "http://" (WowSQLClient.projectUrl config)
            || Js.startsWith "https://" (WowSQLClient.projectUrl config)).
  - intros Hstrip Hapi. rewrite Hstrip, Hapi. reflexivity.
  - destruct (Js.includes _ _ || Js.endsWith _ _);
      intros Hstrip Hapi; rewrite Hstrip, Hapi; reflexivity.
Qed.

Lemma auth_url_agrees_with_client_url_witness :
  Auth.buildAuthBaseUrl "myproject" None None
  = (WowSQLClient.baseUrl (WowSQLClient.mkConfig "myproject" "key" None None None)
     ++ "/api/auth")%string.
Proof.
  apply (auth_url_agrees_with_client_url
           (WowSQLClient.mkConfig "myproject" "key" None None None)).
  - reflexivity.
  - discriminate.
  - reflexivity.
  - reflexivity.
Defined.

(** ** The auth client's session *)

(** X16: with the in-memory token storage, [getSession] gives back
    exactly what [setSession] was given (a missing refresh token as
    null) and null tokens after [clearSession], whatever the session
    was before.  With any token storage at all, a non-empty access token
    given to [setSession] is the one [getSession] returns. *)
Theorem session_round_trip :
  (forall (self : @Auth.t Auth.MemoryAuthTokenStorage) accessToken refreshToken,
     Auth.getSession (Auth.setSession accessToken refreshToken self)
     = (Some accessToken, refreshToken)
     /\ Auth.getSession (Auth.clearSession self) = (None, None))
  /\ (forall (S : Type) (storage : Auth.AuthTokenStorage S) (self : @Auth.t S)
             accessToken refreshToken,
        accessToken <> ""%string ->
        fst (Auth.getSession (Auth.setSession accessToken refreshToken self))
        = Some accessToken).
Proof.
  split.
  - intros self accessToken refreshToken. split; [|reflexivity].
    unfold Auth.getSession, Auth.setSession, Js.or_string. cbn.
    destruct (Js.truthy_string accessToken); destruct refreshToken as [r|];
      try reflexivity.
    all: destruct (Js.truthy_string r); reflexivity.
  - intros S storage self accessToken refreshToken Hne.
    unfold Auth.getSession, Auth.setSession, Js.or_string. cbn.
    assert (Ht : Js.truthy_string accessToken = true).
    { unfold Js.truthy_string. apply negb_true_iff. apply String.eqb_neq. exact Hne. }
    rewrite Ht. reflexivity.
Qed.

Lemma session_round_trip_witness :
  fst (Auth.getSession
         (Auth.setSession "token" None
            (Auth.new "myproject" None None Auth.newMemoryAuthTokenStorage)))
  = Some "token"%string.
Proof.
  apply (proj2 session_round_trip Auth.MemoryAuthTokenStorage
           Auth.Memory_AuthTokenStorage).
  discriminate.
Defined.

(** X17: [signIn] sends one POST to /login with the payload.  If the
    request fails, the stored session is left exactly as it was and the
    error thrown is the translated one, carrying the response's status
    code and body.  If it succeeds, the tokens of the response body
    become the session: with the in-memory storage [getSession] returns
    them afterwards. *)
Theorem signIn_persists_tokens_or_leaves_session client payload
  (st : @Auth.State Auth.MemoryAuthTokenStorage) :
  let req := Auth.POST "/login" (Auth.SignInBody payload) in
  Auth.sent (snd (Auth.signIn client payload st)) = Auth.sent st ++ [req]
  /\ match client (Auth.sent st) req with
     | inl axiosError =>
         exists e,
           fst (Auth.signIn client payload st) = inl e
           /\ WOWSQLError.statusCode e = Auth.response_status axiosError
           /\ WOWSQLError.response e = Auth.response_data axiosError
           /\ Auth.this (snd (Auth.signIn client payload st)) = Auth.this st
     | inr data =>
         fst (Auth.signIn client payload st)
         = inr (Auth.AuthResponse.mk None (Auth.mapSession data))
         /\ Auth.getSession (Auth.this (snd (Auth.signIn client payload st)))
            = (Auth.RawSession.access_token (Auth.session_of data),
               Auth.RawSession.refresh_token (Auth.session_of data))
     end.
Proof.
  intros req. unfold Auth.signIn, Eff.rethrow, Eff.bind, Auth.request,
    Auth.persistSession, Eff.modify, Eff.ret. cbn [Auth.sent Auth.this].
  fold req. destruct (client (Auth.sent st) req) as [axiosError | data]; cbn.
  - split; [reflexivity|]. eexists. repeat split.
  - split; [reflexivity|]. split; [reflexivity|].
    unfold Auth.getSession, Js.or_string. cbn.
    destruct (Auth.RawSession.access_token (Auth.session_of data)) as [a|];
      destruct (Auth.RawSession.refresh_token (Auth.session_of data)) as [r|];
      try destruct (Js.truthy_string a); try destruct (Js.truthy_string r);
      reflexivity.
Qed.

(** X18: [getUser] needs a token: the one passed, else the client's,
    else the storage's, the first that is not empty.  When there is none
    it throws "Access token is required" and sends nothing; when there is
    one it sends exactly one request, GET /me with that token as Bearer
    authorization. *)
Theorem getUser_needs_a_token (S : Type) (storage : Auth.AuthTokenStorage S)
  client accessToken (st : @Auth.State S) :
  let token := Js.or_string accessToken (fst (Auth.getSession (Auth.this st))) in
  (Js.falsy_string token = true ->
   Auth.getUser client accessToken st
   = (inl (WOWSQLError.mk "Access token is required. Please sign in first." None None),
      st))
  /\ (forall t, token = Some t -> t <> ""%string ->
      snd (Auth.getUser client accessToken st)
      = Auth.mkState (Auth.this st)
          (Auth.sent st ++ [Auth.GET "/me" (Some ("Bearer " ++ t)%string) []])).
Proof.
  intros token. unfold Auth.getUser, Eff.bind, Eff.gets. cbn [Auth.getSession fst] in *.
  fold token. split.
  - intros Hfalsy. destruct token as [t|]; cbn in Hfalsy.
    + apply negb_true_iff in Hfalsy. rewrite Hfalsy. reflexivity.
    + reflexivity.
  - intros t Ht Hne. rewrite Ht.
    assert (Htruthy : Js.truthy_string t = true).
    { unfold Js.truthy_string. apply negb_true_iff. apply String.eqb_neq. exact Hne. }
    rewrite Htruthy. unfold Eff.rethrow, Eff.bind, Auth.request, Eff.ret. cbn.
    destruct (client _ _); reflexivity.
Qed.

Lemma getUser_needs_a_token_witness :
  let st := Auth.mkState
              (Auth.clearSession
                 (Auth.setSession "token" None
                    (Auth.new "myproject" None None Auth.newMemoryAuthTokenStorage)))
              [] in
  Auth.getUser (fun _ _ => inl (AxiosError.mk "unreachable" None)) None st
  = (inl (WOWSQLError.mk "Access token is required. Please sign in first." None None),
     st).
Proof.
  intros st.
  apply (proj1 (getUser_needs_a_token Auth.MemoryAuthTokenStorage
                  Auth.Memory_AuthTokenStorage
                  (fun _ _ => inl (AxiosError.mk "unreachable" None)) None st)).
  reflexivity.
Defined.

(** X19: [getOAuthAuthorizationUrl] checks its arguments before it
    sends anything.  A redirect URI that is empty or all white space
    throws "redirectUri is required", whatever the provider; otherwise a
    provider that is empty or all white space throws "provider is
    required"; in both cases no request goes out.  Otherwise exactly one
    request goes out: GET /oauth/{provider}, the provider as given, with
    the trimmed redirect URI as frontend_redirect_uri. *)
Theorem oauth_url_checks_arguments_first (S : Type) (storage : Auth.AuthTokenStorage S)
  client provider redirectUri (st : @Auth.State S) :
  (Js.trim redirectUri = ""%string ->
   Auth.getOAuthAuthorizationUrl client provider redirectUri st
   = (inl (WOWSQLError.mk "redirectUri is required and cannot be empty" None None), st))
  /\ (Js.trim redirectUri <> ""%string -> Js.trim provider = ""%string ->
      Auth.getOAuthAuthorizationUrl client provider redirectUri st
      = (inl (WOWSQLError.mk "provider is required and cannot be empty" None None), st))
  /\ (Js.trim redirectUri <> ""%string -> Js.trim provider <> ""%string ->
      snd (Auth.getOAuthAuthorizationUrl client provider redirectUri st)
      = Auth.mkState (Auth.this st)
          (Auth.sent st
           ++ [Auth.GET ("/oauth/" ++ provider) None
                 [("frontend_redirect_uri"%string, Js.trim redirectUri)]])).
Proof.
  assert (Hblank : forall s, Js.trim s = ""%string ->
            negb (Js.truthy_string s) || negb (Js.truthy_string (Js.trim s)) = true).
  { intros s Hs. rewrite Hs. apply orb_true_r. }
  assert (Hfull : forall s, Js.trim s <> ""%string ->
            negb (Js.truthy_string s) || negb (Js.truthy_string (Js.trim s)) = false).
  { intros s Hs. unfold Js.truthy_string. rewrite !negb_involutive.
    apply orb_false_iff. split; apply String.eqb_neq; [|exact Hs].
    intros ->. apply Hs. reflexivity. }
  unfold Auth.getOAuthAuthorizationUrl. split; [|split].
  - intros Hr. rewrite (Hblank _ Hr). reflexivity.
  - intros Hr Hp. rewrite (Hfull _ Hr), (Hblank _ Hp). reflexivity.
  - intros Hr Hp. rewrite (Hfull _ Hr), (Hfull _ Hp).
    unfold Eff.bind, Eff.gets, Eff.rethrow, Auth.request, Eff.ret. cbn.
    destruct (client _ _); reflexivity.
Qed.

Lemma oauth_url_checks_arguments_first_witness :
  let st := Auth.mkState
              (Auth.new "myproject" None None Auth.newMemoryAuthTokenStorage) [] in
  Auth.getOAuthAuthorizationUrl
    (fun _ _ => inl (AxiosError.mk "unreachable" None)) "" "   " st
  = (inl (WOWSQLError.mk "redirectUri is required and cannot be empty" None None), st).
Proof.
  intros st.
  apply (proj1 (oauth_url_checks_arguments_first Auth.MemoryAuthTokenStorage
                  Auth.Memory_AuthTokenStorage
                  (fun _ _ => inl (AxiosError.mk "unreachable" None)) "" "   " st)).
  reflexivity.
Defined.

(** ** The storage client's quota cache and the upload gate *)

Lemma getQuota_fetch client st forceRefresh :
  (Storage.quotaCache (Storage.this st) = None \/ forceRefresh = Some true) ->
  Storage.getQuota client forceRefresh st =
  let req := Storage.GET (Storage.quota_path (Storage.this st)) in
  match client (Storage.sent st) req with
  | inr q =>
      (inr q,
       Storage.mkState
         (Storage.mk (Storage.projectSlug (Storage.this st))
            (Storage.autoCheckQuota (Storage.this st)) (Some q))
         (Storage.sent st ++ [req]))
  | inl e => (inl e, Storage.mkState (Storage.this st) (Storage.sent st ++ [req]))
  end.
Proof.
  intros H. unfold Storage.getQuota, Eff.bind, Eff.gets, Storage.request, Eff.modify,
    Eff.ret, Storage.set_quotaCache. cbn.
  destruct H as [H | ->].
  - rewrite H. destruct (client _ _); reflexivity.
  - destruct (Storage.quotaCache (Storage.this st)); cbn;
      destruct (client _ _); reflexivity.
Qed.

Lemma getQuota_cached client st forceRefresh q :
  Storage.quotaCache (Storage.this st) = Some q ->
  forceRefresh <> Some true ->
  Storage.getQuota client forceRefresh st = (inr q, st).
Proof.
  intros Hc Hf. unfold Storage.getQuota, Eff.bind, Eff.gets, Eff.ret. cbn.
  rewrite Hc. destruct forceRefresh as [[|]|]; [congruence | |]; reflexivity.
Qed.

(** X20: a quota that [getQuota] has returned is served from the cache
    afterwards: the next [getQuota()] without a forced refresh returns
    the same quota and sends no request. *)
Theorem getQuota_serves_from_cache client forceRefresh st q :
  fst (Storage.getQuota client forceRefresh st) = inr q ->
  let st1 := snd (Storage.getQuota client forceRefresh st) in
  Storage.getQuota client None st1 = (inr q, st1)
  /\ Storage.getQuota client (Some false) st1 = (inr q, st1).
Proof.
  intros Hq st1.
  assert (Hcache : Storage.quotaCache (Storage.this st1) = Some q).
  { unfold st1. clear st1.
    destruct (Storage.quotaCache (Storage.this st)) as [c|] eqn:Hc.
    - destruct forceRefresh as [[|]|].
      + rewrite getQuota_fetch in *; [|right; reflexivity | right; reflexivity].
        cbv zeta in *. destruct (client _ _); cbn in *; congruence.
      + rewrite (getQuota_cached _ _ _ c Hc) in *; [|discriminate | discriminate].
        cbn in *. congruence.
      + rewrite (getQuota_cached _ _ _ c Hc) in *; [|discriminate | discriminate].
        cbn in *. congruence.
    - rewrite getQuota_fetch in *; [|left; exact Hc | left; exact Hc].
      cbv zeta in *. destruct (client _ _); cbn in *; congruence. }
  split; apply getQuota_cached; try exact Hcache; discriminate.
Qed.

Lemma getQuota_serves_from_cache_witness :
  let q := Storage.StorageQuota.mk 5 1 0 4 20 false false "Free" in
  let client := fun (_ : list Storage.Request) (_ : Storage.Request) =>
                  @inr Storage.Error.t _ q in
  let st1 := snd (Storage.getQuota client None
                    (Storage.mkState (Storage.new "myproject" None) [])) in
  Storage.getQuota client None st1 = (inr q, st1).
Proof.
  intros q client st1.
  apply (proj1 (getQuota_serves_from_cache client None
                  (Storage.mkState (Storage.new "myproject" None) []) q eq_refl)).
Defined.

Lemma checkUploadAllowed_run client fileSizeBytes st :
  let req := Storage.GET (Storage.quota_path (Storage.this st)) in
  match client (Storage.sent st) req with
  | inr q =>
      exists message,
        Storage.checkUploadAllowed client fileSizeBytes st
        = (inr (Qle_bool (Storage.bytes_to_GB fileSizeBytes)
                  (Storage.StorageQuota.storage_available_gb q), message),
           Storage.mkState
             (Storage.mk (Storage.projectSlug (Storage.this st))
                (Storage.autoCheckQuota (Storage.this st)) (Some q))
             (Storage.sent st ++ [req]))
  | inl e =>
      Storage.checkUploadAllowed client fileSizeBytes st
      = (inl e, Storage.mkState (Storage.this st) (Storage.sent st ++ [req]))
  end.
Proof.
  intros req. unfold Storage.checkUploadAllowed, Eff.bind.
  rewrite getQuota_fetch; [|right; reflexivity]. cbv zeta. fold req.
  destruct (client (Storage.sent st) req) as [e | q]; [reflexivity|].
  unfold Storage.exceeds.
  destruct (Qle_bool _ _); cbn; eexists; reflexivity.
Qed.

(** X21: [checkUploadAllowed] never trusts the cache: it sends one
    quota request even when a quota is cached, and caches the answer.
    The upload is allowed exactly when the file size in GB is at most
    the available GB, so a file that fills the remaining space to the
    last byte is allowed. *)
Theorem checkUploadAllowed_refreshes_and_compares client fileSizeBytes st :
  let req := Storage.GET (Storage.quota_path (Storage.this st)) in
  Storage.sent (snd (Storage.checkUploadAllowed client fileSizeBytes st))
  = Storage.sent st ++ [req]
  /\ forall q, client (Storage.sent st) req = inr q ->
       Storage.quotaCache
         (Storage.this (snd (Storage.checkUploadAllowed client fileSizeBytes st)))
       = Some q
       /\ exists allowed message,
            fst (Storage.checkUploadAllowed client fileSizeBytes st)
            = inr (allowed, message)
            /\ (allowed = true <->
                (Storage.bytes_to_GB fileSizeBytes
                 <= Storage.StorageQuota.storage_available_gb q)%Q).
Proof.
  intros req. pose proof (checkUploadAllowed_run client fileSizeBytes st) as Hrun.
  cbv zeta in Hrun. fold req in Hrun.
  destruct (client (Storage.sent st) req) as [e | q0].
  - rewrite Hrun. split; [reflexivity|]. intros q Hq. discriminate Hq.
  - destruct Hrun as [message Hrun]. rewrite Hrun. split; [reflexivity|].
    intros q Hq. injection Hq as <-. split; [reflexivity|].
    eexists. exists message. split; [reflexivity|]. apply Qle_bool_iff.
Qed.

Lemma checkUploadAllowed_refreshes_and_compares_witness :
  let q := Storage.StorageQuota.mk 5 4 0 1 80 false false "Free" in
  let client := fun (_ : list Storage.Request) (_ : Storage.Request) =>
                  @inr Storage.Error.t _ q in
  let st := Storage.mkState (Storage.new "myproject" None) [] in
  Storage.quotaCache
    (Storage.this (snd (Storage.checkUploadAllowed client 1073741824 st)))
  = Some q.
Proof.
  intros q client st.
  apply (proj2 (checkUploadAllowed_refreshes_and_compares client 1073741824 st) q).
  reflexivity.
Defined.

(** X22: with the quota check on, [uploadFile] asks for the quota
    first, and a file larger than what is available is never uploaded:
    it throws StorageLimitExceededError with status 413 and the quota
    request is the only one sent.  A file that fits is uploaded by one
    POST after the quota request. *)
Theorem uploadFile_checks_quota_before_upload client_quota client_upload
  fileData fileName options st q :
  let quota_req := Storage.GET (Storage.quota_path (Storage.this st)) in
  let upload_req :=
    Storage.POST_form (Storage.upload_url options (Storage.this st)) fileName
      (Storage.blob_bytes fileData) in
  Storage.shouldCheck options (Storage.this st) = true ->
  client_quota (Storage.sent st) quota_req = inr q ->
  ((Storage.StorageQuota.storage_available_gb q
    < Storage.bytes_to_GB (Storage.fileSize fileData))%Q ->
   exists message,
     Storage.uploadFile client_quota client_upload fileData fileName options st
     = (inl (Storage.Error.mk Storage.StorageLimitExceededError message
               (Some 413%Z) None),
        Storage.mkState
          (Storage.mk (Storage.projectSlug (Storage.this st))
             (Storage.autoCheckQuota (Storage.this st)) (Some q))
          (Storage.sent st ++ [quota_req])))
  /\ ((Storage.bytes_to_GB (Storage.fileSize fileData)
       <= Storage.StorageQuota.storage_available_gb q)%Q ->
      Storage.sent
        (snd (Storage.uploadFile client_quota client_upload fileData fileName options st))
      = Storage.sent st ++ [quota_req; upload_req]).
Proof.
  intros quota_req upload_req Hcheck Hq.
  pose proof (checkUploadAllowed_run client_quota (Storage.fileSize fileData) st) as Hrun.
  cbv zeta in Hrun. fold quota_req in Hrun. rewrite Hq in Hrun.
  destruct Hrun as [message Hrun].
  unfold Storage.uploadFile, Eff.bind, Eff.gets. cbn beta iota. rewrite Hcheck, Hrun.
  cbn [fst snd].
  split.
  - intros Hlt.
    assert (Hb : Qle_bool (Storage.bytes_to_GB (Storage.fileSize fileData))
                   (Storage.StorageQuota.storage_available_gb q) = false).
    { destruct (Qle_bool _ _) eqn:E; [|reflexivity].
      apply Qle_bool_iff in E. exfalso. exact (Qlt_not_le _ _ Hlt E). }
    rewrite Hb. cbn. exists message. reflexivity.
  - intros Hle. apply Qle_bool_iff in Hle. rewrite Hle.
    subst upload_req.
    unfold Storage.request, Eff.modify, Eff.ret, Eff.throw. cbn -[Storage.upload_url].
    destruct (client_upload _ _); cbn -[Storage.upload_url];
      rewrite <- app_assoc; reflexivity.
Qed.

Lemma uploadFile_checks_quota_before_upload_witness :
  let q := Storage.StorageQuota.mk 1 1 0 0 100 false false "Free" in
  let client_quota := fun (_ : list Storage.Request) (_ : Storage.Request) =>
                        @inr Storage.Error.t _ q in
  let client_upload := fun (_ : list Storage.Request) (_ : Storage.Request) =>
                         @inl Storage.Error.t Storage.FileUploadResult.t
                           (Storage.Error.mk Storage.StorageError "unreachable" None None) in
  let st := Storage.mkState (Storage.new "myproject" None) [] in
  exists message,
    Storage.uploadFile client_quota client_upload
      (Storage.Buffer [Byte.x00]) "a.bin" None st
    = (inl (Storage.Error.mk Storage.StorageLimitExceededError message (Some 413%Z) None),
       Storage.mkState (Storage.mk "myproject" true (Some q))
         [Storage.GET "/api/v1/storage/s3/projects/myproject/quota"]).
Proof.
  intros q client_quota client_upload st.
  apply (proj1 (uploadFile_checks_quota_before_upload client_quota client_upload
                  (Storage.Buffer [Byte.x00]) "a.bin" None st q eq_refl eq_refl)).
  reflexivity.
Defined.

(** X23: [checkQuota: false] in the options switches the check off
    whatever [autoCheckQuota] says: [uploadFile] sends the upload POST
    and nothing else.  The cached quota is dropped when the upload
    succeeds and kept when it fails. *)
Theorem uploadFile_unchecked_sends_only_the_upload client_quota client_upload
  fileData fileName folder contentType st :
  let options := Some (Storage.UploadOptions.mk folder contentType (Some false)) in
  let req := Storage.POST_form (Storage.upload_url options (Storage.this st)) fileName
               (Storage.blob_bytes fileData) in
  Storage.uploadFile client_quota client_upload fileData fileName options st
  = match client_upload (Storage.sent st) req with
    | inr data =>
        (inr data,
         Storage.mkState
           (Storage.mk (Storage.projectSlug (Storage.this st))
              (Storage.autoCheckQuota (Storage.this st)) None)
           (Storage.sent st ++ [req]))
    | inl e => (inl e, Storage.mkState (Storage.this st) (Storage.sent st ++ [req]))
    end.
Proof.
  intros options req. subst req options.
  unfold Storage.uploadFile, Eff.bind, Eff.gets, Storage.request, Eff.modify, Eff.ret,
    Storage.set_quotaCache. cbn -[Storage.upload_url].
  destruct (client_upload _ _); reflexivity.
Qed.

(** X24: [deleteFile] sends one DELETE for the key.  When it succeeds
    the cached quota is dropped, so the next [getQuota()] goes to the
    server even without a forced refresh; when it fails the cache is
    left as it was. *)
Theorem deleteFile_drops_cache_on_success client_delete client_quota fileKey st :
  let req := Storage.DELETE ("/api/v1/storage/s3/projects/"
                             ++ Storage.projectSlug (Storage.this st)
                             ++ "/files/" ++ fileKey) in
  let st1 := snd (Storage.deleteFile client_delete fileKey st) in
  Storage.sent st1 = Storage.sent st ++ [req]
  /\ match client_delete (Storage.sent st) req with
     | inr data =>
         fst (Storage.deleteFile client_delete fileKey st) = inr data
         /\ Storage.sent (snd (Storage.getQuota client_quota None st1))
            = Storage.sent st1 ++ [Storage.GET (Storage.quota_path (Storage.this st))]
     | inl e =>
         fst (Storage.deleteFile client_delete fileKey st) = inl e
         /\ Storage.this st1 = Storage.this st
     end.
Proof.
  intros req st1. subst st1.
  unfold Storage.deleteFile, Eff.bind, Eff.gets, Storage.request, Eff.modify, Eff.ret,
    Storage.set_quotaCache. cbn beta iota. fold req.
  destruct (client_delete (Storage.sent st) req) as [e | data]; cbn [fst snd Storage.sent
    Storage.this].
  - repeat split.
  - split; [reflexivity|]. split; [reflexivity|].
    rewrite getQuota_fetch; [|left; reflexivity]. cbv zeta.
    cbn [Storage.this Storage.sent Storage.quota_path Storage.projectSlug].
    destruct (client_quota _ _); reflexivity.
Qed.

(** ** The schema client *)

Lemma stripTrailingSlash_app_slash u : Js.stripTrailingSlash (u ++ "/") = u.
Proof.
  induction u as [|c u IH]; [reflexivity|].
  change (String c u ++ "/")%string with (String c (u ++ "/")).
  cbn [Js.stripTrailingSlash]. rewrite IH.
  destruct u; reflexivity.
Qed.

(** X25: the constructor takes one slash, and only one, off the end of
    the project URL: the client built from a URL followed by a slash has
    exactly that URL as its base, so a URL written with or without its
    final slash gives the same client, and of two final slashes one
    stays. *)
Theorem schema_constructor_drops_one_slash u serviceKey :
  Schema.new (u ++ "/") serviceKey = Schema.mk u serviceKey
  /\ Schema.new (u ++ "//") serviceKey = Schema.mk (u ++ "/") serviceKey.
Proof.
  unfold Schema.new. split.
  - rewrite stripTrailingSlash_app_slash. reflexivity.
  - replace (u ++ "//")%string with ((u ++ "/") ++ "/")%string
      by (rewrite string_app_assoc; reflexivity).
    rewrite stripTrailingSlash_app_slash. reflexivity.
Qed.

(** X26: a 403 answer is reported as the missing service role key by
    every schema operation, before the response body is looked at: the
    error thrown is the fixed message whatever the body and the status
    text are, also when the body is not JSON. *)
Theorem schema_403_means_service_role_key fetch self st response :
  (forall r, fetch (Schema.sent st) r = inr response) ->
  Schema.Response.status response = 403%Z ->
  (forall options,
     fst (Schema.createTable fetch self options st)
     = inl (Schema.Error
              ("Schema operations require a SERVICE ROLE key. "
               ++ "You are using an anonymous key which cannot modify database schema.")))
  /\ (forall options,
        fst (Schema.alterTable fetch self options st)
        = inl (Schema.Error "Schema operations require a SERVICE ROLE key."))
  /\ (forall tableName cascade,
        fst (Schema.dropTable fetch self tableName cascade st)
        = inl (Schema.Error "Schema operations require a SERVICE ROLE key."))
  /\ (forall sql,
        fst (Schema.executeSQL fetch self sql st)
        = inl (Schema.Error "Schema operations require a SERVICE ROLE key.")).
Proof.
  intros Hfetch Hstatus.
  repeat split; intros;
    unfold Schema.createTable, Schema.alterTable, Schema.dropTable, Schema.executeSQL,
      Eff.bind, Schema.call_fetch, Schema.settle;
    rewrite Hfetch, Hstatus; reflexivity.
Qed.

Lemma schema_403_means_service_role_key_witness :
  let response := Schema.Response.mk 403 "Forbidden" None in
  fst (Schema.executeSQL (fun _ _ => inr response)
         (Schema.new "https://myproject.wowsql.com/" "anon") "SELECT 1"
         (Schema.mkState []))
  = inl (Schema.Error "Schema operations require a SERVICE ROLE key.").
Proof.
  intros response.
  apply (schema_403_means_service_role_key (fun _ _ => inr response)
           (Schema.new "https://myproject.wowsql.com/" "anon") (Schema.mkState [])
           response (fun _ => eq_refl) eq_refl).
Defined.
